(** * Tester.py: a shallow embedding of the bash-script test harness

    The harness (src/Tester.py) loads test-case descriptors from
    Testcase.json, runs each script under bash with a timeout, validates
    the result and writes a per-test log file plus a running summary log.

    Modelling choices.
    - A Python [str] is a [string] whose characters are the code points
      below 256; [isalnum] and [isspace] are [str.isalnum] and
      [str.isspace] on these code points (Latin-1 letters, the digits
      and fractions of that block, NEL and the no-break space included).
      Text with code points from 256 on is outside the model.
    - A [pathlib.Path] is its parsed form: an anchor and the list of its
      components (PurePosixPath).  The file system is keyed by the
      components of the absolute path; [..] components and symbolic links
      are not resolved.
    - A test-case dictionary is a record whose fields are the keys of the
      configuration schema; an absent key is [None].
    - The operating system (clock, bash, chmod, the JSON parser, float
      formatting) is an explicit environment [Env] of oracles.
    - Module-level globals and the file system form the [World], threaded
      through every operation; Python exceptions are the [Raised] outcome.
    - Calls of the logger on its own log directory (mkdir, open for
      writing) are taken to succeed at the operating-system level.
    - A script run is an oracle for what [subprocess.run] returns or
      raises; what the script itself does to the file system is outside
      the model.
    - [assert c, m] has its plain Python meaning: when [c] is false it
      raises [AssertionError(m)], evaluating [m] only then. *)

From Stdlib Require Import Ascii String ZArith QArith DecimalString.
From stdpp Require Import gmap strings list fin_maps.

Local Open Scope string_scope.
Local Open Scope Z_scope.

(** ** Python strings *)

Module PyStr.

Definition nl : string := String "010"%char EmptyString.

Definition chars (s : string) : list ascii := list_ascii_of_string s.
Definition of_chars (l : list ascii) : string := string_of_list_ascii l.

Definition code (c : ascii) : nat := nat_of_ascii c.

Definition in_range (lo hi : nat) (c : ascii) : bool :=
  (Nat.leb lo (code c) && Nat.leb (code c) hi)%bool.

(** [c.isalnum()] for the code points below 256: the ASCII digits and
    letters, the ordinal indicators, the superscript digits, the micro
    sign, the fractions, and the Latin-1 letters (the multiplication and
    division signs, 215 and 247, are not letters). *)
Definition isalnum (c : ascii) : bool :=
  (in_range 48 57 c || in_range 65 90 c || in_range 97 122 c
   || in_range 170 170 c || in_range 178 179 c || in_range 181 181 c
   || in_range 185 186 c || in_range 188 190 c || in_range 192 214 c
   || in_range 216 246 c || in_range 248 255 c)%bool.

(** [c.isspace()] for the code points below 256: TAB, LF, VT, FF, CR,
    FS, GS, RS, US, space, NEL (133) and the no-break space (160). *)
Definition isspace (c : ascii) : bool :=
  (in_range 9 13 c || in_range 28 32 c || in_range 133 133 c
   || in_range 160 160 c)%bool.

Fixpoint drop_while {A} (p : A -> bool) (l : list A) : list A :=
  match l with
  | [] => []
  | x :: l' => if p x then drop_while p l' else l
  end.

Fixpoint take_while {A} (p : A -> bool) (l : list A) : list A :=
  match l with
  | [] => []
  | x :: l' => if p x then x :: take_while p l' else []
  end.

Definition lstrip (s : string) : string :=
  of_chars (drop_while isspace (chars s)).

Definition rstrip (s : string) : string :=
  of_chars (rev (drop_while isspace (rev (chars s)))).

Definition strip (s : string) : string := rstrip (lstrip s).

(** [needle in hay]. *)
Fixpoint contains (needle hay : string) : bool :=
  match hay with
  | EmptyString => String.prefix needle hay
  | String _ rest => (String.prefix needle hay || contains needle rest)%bool
  end.

(** [s.replace(a, b)] for single characters. *)
Definition replace_char (a b : ascii) (s : string) : string :=
  of_chars (map (fun c => if Ascii.eqb c a then b else c) (chars s)).

(** [s.split(chr(10))[0]]. *)
Definition first_line (s : string) : string :=
  of_chars (take_while (fun c => negb (Ascii.eqb c "010"%char)) (chars s)).

(** [s[:n]]. *)
Definition slice_to (n : nat) (s : string) : string :=
  of_chars (take n (chars s)).

(** [s * n]. *)
Fixpoint repeat_str (s : string) (n : nat) : string :=
  match n with
  | O => ""
  | S n' => s ++ repeat_str s n'
  end.

(** [s.split(sep)] for a single-character separator. *)
Fixpoint split_chars (sep : ascii) (cur : list ascii) (l : list ascii)
  : list string :=
  match l with
  | [] => [of_chars (rev cur)]
  | c :: l' =>
      if Ascii.eqb c sep then of_chars (rev cur) :: split_chars sep [] l'
      else split_chars sep (c :: cur) l'
  end.

Definition split (sep : ascii) (s : string) : list string :=
  split_chars sep [] (chars s).

Fixpoint join (sep : string) (l : list string) : string :=
  match l with
  | [] => ""
  | [x] => x
  | x :: l' => x ++ sep ++ join sep l'
  end.

Definition str_int (z : Z) : string := NilZero.string_of_int (Z.to_int z).

Definition str_bool (b : bool) : string := if b then "True" else "False".

(** Truthiness of a string and of an optional string ([None] is falsy). *)
Definition truthy (s : string) : bool := negb (String.eqb s "").

Definition truthy_opt (o : option string) : bool :=
  match o with
  | Some s => truthy s
  | None => false
  end.

(** Zero-padded decimal, as [%02d]/[%04d] in [strftime]. *)
Definition pad (width : nat) (n : nat) : string :=
  let s := NilZero.string_of_uint (Nat.to_uint n) in
  repeat_str "0" (width - String.length s)%nat ++ s.

End PyStr.

(** ** pathlib paths (PurePosixPath) *)

Record path := MkPath { anchor : string; parts : list string }.

#[global] Instance path_eq_dec : EqDecision path.
Proof. solve_decision. Defined.

Module PyPath.

Definition starts_with_slash (s : string) : bool :=
  match s with
  | String c _ => Ascii.eqb c "/"
  | EmptyString => false
  end.

(** [s[1:]]. *)
Definition tail (s : string) : string :=
  match s with
  | String _ r => r
  | EmptyString => ""
  end.

(** [posixpath.splitroot]: one leading slash or three and more give the
    root [/], exactly two give the root [//]. *)
Definition splitroot (s : string) : string * string :=
  if negb (starts_with_slash s) then ("", s)
  else if (negb (starts_with_slash (tail s))
           || starts_with_slash (tail (tail s)))%bool
       then ("/", tail s)
       else ("//", tail (tail s)).

Definition keep_part (x : string) : bool :=
  (negb (String.eqb x "") && negb (String.eqb x "."))%bool.

(** [Path(s)]. *)
Definition Path (s : string) : path :=
  let '(root, rel) := splitroot s in
  MkPath root (filter (fun x => keep_part x = true) (PyStr.split "/" rel)).

(** [str(p)]. *)
Definition str (p : path) : string :=
  let body := PyStr.join "/" (parts p) in
  if PyStr.truthy (anchor p) then anchor p ++ body
  else if PyStr.truthy body then body else ".".

Definition is_absolute (p : path) : bool := PyStr.truthy (anchor p).

(** [a / b]. *)
Definition joinpath (a b : path) : path :=
  if is_absolute b then b else MkPath (anchor a) (parts a ++ parts b).

(** [p.name]: the final component. *)
Definition name (p : path) : string := List.last (parts p) "".

(** Index of the last ['.'] counted from the end of the name. *)
Fixpoint find_dot (l : list ascii) (i : nat) : option nat :=
  match l with
  | [] => None
  | c :: l' => if Ascii.eqb c "." then Some i else find_dot l' (S i)
  end.

(** [p.stem]: with [i = name.rfind('.')], [name[:i]] when
    [0 < i < len(name) - 1], else [name]. *)
Definition stem (p : path) : string :=
  let n := PyStr.chars (name p) in
  match find_dot (rev n) O with
  | Some j =>
      let i := (length n - 1 - j)%nat in
      if (Nat.ltb 0 i && Nat.ltb i (length n - 1))%bool
      then PyStr.of_chars (take i n) else name p
  | None => name p
  end.

End PyPath.

Notation "a </> b" := (PyPath.joinpath a b) (at level 40, left associativity).
Notation "a <//> s" := (PyPath.joinpath a (PyPath.Path s))
  (at level 40, left associativity).

(** ** Data model *)

(** A JSON / Python number: [int] or [float]. *)
Inductive number := Int (z : Z) | Float (q : Q).

(** A test-case descriptor: the dictionary read from Testcase.json. *)
Record test_case := {
  name : option string;
  script_path : option string;
  expected_success : option bool;
  timeout : option number;
  expected_output : option string;
  expected_result_file : option string
}.

(** An element of the configuration list: a bare string or a dictionary. *)
Inductive config_entry :=
| EntryStr (s : string)
| EntryDict (tc : test_case).

(** The dictionary returned by [execute_bash_script]. *)
Record result := {
  returncode : Z;
  stdout : string;
  stderr : string;
  execution_time : number;
  success : bool
}.

Inductive exn :=
| AssertionError (msg : string)
| UnboundLocalError (var : string)
| TimeoutExpired
| OSError (msg : string)
| FileNotFoundError (msg : string)
| TypeError (msg : string)
| PytestFailed (msg : string).

(** [str(e)]. *)
Definition str_exn (e : exn) : string :=
  match e with
  | AssertionError m => m
  | UnboundLocalError v =>
      "cannot access local variable '" ++ v
      ++ "' where it is not associated with a value"
  | TimeoutExpired => "Command timed out"
  | OSError m => m
  | FileNotFoundError m => m
  | TypeError m => m
  | PytestFailed m => m
  end.

Record datetime := {
  year : nat; month : nat; day : nat; hour : nat; minute : nat; second : nat
}.

(** [strftime("%Y%m%d_%H%M%S")]. *)
Definition strftime_compact (d : datetime) : string :=
  PyStr.pad 4 (year d) ++ PyStr.pad 2 (month d) ++ PyStr.pad 2 (day d) ++ "_"
  ++ PyStr.pad 2 (hour d) ++ PyStr.pad 2 (minute d) ++ PyStr.pad 2 (second d).

(** [strftime("%Y-%m-%d %H:%M:%S")]. *)
Definition strftime_iso (d : datetime) : string :=
  PyStr.pad 4 (year d) ++ "-" ++ PyStr.pad 2 (month d) ++ "-"
  ++ PyStr.pad 2 (day d) ++ " " ++ PyStr.pad 2 (hour d) ++ ":"
  ++ PyStr.pad 2 (minute d) ++ ":" ++ PyStr.pad 2 (second d).

(** File-system effects of the harness, in the order they happen. *)
Inductive fs_event :=
| EvMkdir (k : list string)
| EvWrite (k : list string) (content : string)
| EvAppend (k : list string) (content : string)
| EvChmod (k : list string).

(** The process state: the file system, the two module globals, the
    number of clock reads so far, the console and the effect trace. *)
Record World := MkWorld {
  files : gmap (list string) string;
  dirs : gset (list string);
  TEST_RUN_DIR : option path;
  RESULT_LOG_FILE : option path;
  ticks : nat;
  console : list string;
  trace : list fs_event
}.

(** What [subprocess.run(['bash', script], timeout=t)] does. *)
Inductive proc_outcome :=
| Completed (rc : Z) (out err : string) (elapsed : Q)
| TimedOut
| LaunchFailed (msg : string).

(** The environment of the process. *)
Record Env := {
  script_dir : path;                       (* Path(__file__).parent *)
  cwd : path;                              (* the working directory *)
  now : nat -> datetime;                   (* the n-th datetime.now() *)
  format_2f : number -> string;            (* f"{x:.2f}" *)
  str_float : Q -> string;                 (* str(x) for a float *)
  json_load : string -> option (list config_entry);
  chmod_error : path -> World -> option string;
  os_error_text : path -> World -> string; (* str(e) of the OSError that a
                                              failing call on the path raises *)
  subprocess_run : string -> number -> World -> proc_outcome
}.

Inductive outcome (A : Type) :=
| Returned (a : A) (w : World)
| Raised (e : exn) (w : World).
Arguments Returned {A} a w.
Arguments Raised {A} e w.

Definition final_world {A} (o : outcome A) : World :=
  match o with
  | Returned _ w => w
  | Raised _ w => w
  end.

(** ** The harness *)

Section Harness.

Context (E : Env).

(** *** File-system and process primitives *)

(** Components of the absolute form of [p]. *)
Definition fs_key (p : path) : list string :=
  parts (if PyPath.is_absolute p then p else cwd E </> p).

Definition is_file (p : path) (w : World) : bool :=
  bool_decide (is_Some (files w !! fs_key p)).

Definition is_dir (p : path) (w : World) : bool :=
  bool_decide (fs_key p ∈ dirs w).

(** [p.exists()]. *)
Definition path_exists (p : path) (w : World) : bool :=
  (is_file p w || is_dir p w)%bool.

Definition log_event (e : fs_event) (w : World) : World :=
  MkWorld (files w) (dirs w) (TEST_RUN_DIR w) (RESULT_LOG_FILE w)
          (ticks w) (console w) (trace w ++ [e]).

(** [p.mkdir(exist_ok=True)]. *)
Definition mkdir (p : path) (w : World) : World :=
  log_event (EvMkdir (fs_key p))
    (MkWorld (files w) ({[fs_key p]} ∪ dirs w) (TEST_RUN_DIR w)
             (RESULT_LOG_FILE w) (ticks w) (console w) (trace w)).

(** [with open(p, 'w') as f: f.write(s)]: create or truncate. *)
Definition write_file (p : path) (s : string) (w : World) : World :=
  log_event (EvWrite (fs_key p) s)
    (MkWorld (<[fs_key p := s]> (files w)) (dirs w) (TEST_RUN_DIR w)
             (RESULT_LOG_FILE w) (ticks w) (console w) (trace w)).

(** [with open(p, 'a') as f: f.write(s)]: create or extend. *)
Definition append_file (p : path) (s : string) (w : World) : World :=
  log_event (EvAppend (fs_key p) s)
    (MkWorld (<[fs_key p := default "" (files w !! fs_key p) ++ s]> (files w))
             (dirs w) (TEST_RUN_DIR w) (RESULT_LOG_FILE w) (ticks w)
             (console w) (trace w)).

(** [with open(p, 'r') as f: f.read()].  A directory raises
    [IsADirectoryError], a path that is not there [FileNotFoundError];
    the text of the error is the operating system's. *)
Definition read_file (p : path) (w : World) : exn + string :=
  match files w !! fs_key p with
  | Some c => inr c
  | None =>
      if is_dir p w
      then inl (OSError (os_error_text E p w))
      else inl (FileNotFoundError (os_error_text E p w))
  end.

(** [datetime.now()]: the next reading of the clock. *)
Definition datetime_now (w : World) : datetime * World :=
  (now E (ticks w),
   MkWorld (files w) (dirs w) (TEST_RUN_DIR w) (RESULT_LOG_FILE w)
           (S (ticks w)) (console w) (trace w)).

Definition print (s : string) (w : World) : World :=
  MkWorld (files w) (dirs w) (TEST_RUN_DIR w) (RESULT_LOG_FILE w)
          (ticks w) (console w ++ [s]) (trace w).

Definition set_TEST_RUN_DIR (p : path) (w : World) : World :=
  MkWorld (files w) (dirs w) (Some p) (RESULT_LOG_FILE w)
          (ticks w) (console w) (trace w).

Definition set_RESULT_LOG_FILE (p : path) (w : World) : World :=
  MkWorld (files w) (dirs w) (TEST_RUN_DIR w) (Some p)
          (ticks w) (console w) (trace w).

(** [p.chmod(0o755)].  On a path that does not exist it raises the
    [OSError] of the operating system ([FileNotFoundError], or
    [NotADirectoryError] below a regular file); on an existing path it
    may be refused. *)
Definition chmod (p : path) (w : World) : exn + World :=
  if path_exists p w then
    match chmod_error E p w with
    | Some msg => inl (OSError msg)
    | None => inr (log_event (EvChmod (fs_key p)) w)
    end
  else inl (OSError (os_error_text E p w)).

(** [str(x)] for a number. *)
Definition str_number (x : number) : string :=
  match x with
  | Int z => PyStr.str_int z
  | Float q => str_float E q
  end.

(** *** Run Logger *)

Definition rule : string := PyStr.repeat_str "=" 50.

Definition setup_logging (w : World) : World :=
  match TEST_RUN_DIR w with
  | Some _ => w
  | None =>
      let logs_dir := script_dir E <//> "logs" in
      let w := mkdir logs_dir w in
      let '(t, w) := datetime_now w in
      let timestamp := strftime_compact t in
      let run_dir := logs_dir <//> ("test_run_" ++ timestamp) in
      let w := set_TEST_RUN_DIR run_dir w in
      let w := mkdir run_dir w in
      let result_log := run_dir <//> "result.log" in
      let w := set_RESULT_LOG_FILE result_log w in
      let '(t, w) := datetime_now w in
      let w := write_file result_log
                 ("Test Run Started: " ++ strftime_iso t ++ PyStr.nl
                  ++ rule ++ PyStr.nl ++ PyStr.nl) w in
      print ("Test logs will be saved to: " ++ PyPath.str run_dir) w
  end.

(** The name of the per-test log file, without its directory. *)
Definition safe_name (test_name : string) : string :=
  PyStr.rstrip
    (PyStr.of_chars
       (filter (fun c => (PyStr.isalnum c
                          || bool_decide (c ∈ [" "; "-"; "_"]%char))%bool = true)
               (PyStr.chars test_name))).

Definition test_log_name (test_name : string) : string :=
  PyStr.replace_char " " "_" (safe_name test_name) ++ ".log".

Definition script_success (r : result) (expected : bool) : bool :=
  Bool.eqb (success r) expected.

Definition overall_success (r : result) (expected : bool)
           (validation_error : option string) : bool :=
  (script_success r expected
   && match validation_error with None => true | Some _ => false end)%bool.

Definition status (r : result) (expected : bool)
           (validation_error : option string) : string :=
  if overall_success r expected validation_error then "PASSED" else "FAILED".

Definition or_else (s alt : string) : string :=
  if PyStr.truthy s then s else alt.

Definition test_log_content (test_name : string) (script : path)
           (timestamp : string) (r : result) (expected : bool)
           (validation_error : option string) : string :=
  "Test: " ++ test_name ++ PyStr.nl
  ++ "Script: " ++ PyPath.str script ++ PyStr.nl
  ++ "Timestamp: " ++ timestamp ++ PyStr.nl
  ++ "Status: " ++ status r expected validation_error ++ PyStr.nl
  ++ "Expected Success: " ++ PyStr.str_bool expected ++ PyStr.nl
  ++ "Actual Success: " ++ PyStr.str_bool (success r) ++ PyStr.nl
  ++ "Return Code: " ++ PyStr.str_int (returncode r) ++ PyStr.nl
  ++ "Execution Time: " ++ format_2f E (execution_time r) ++ " seconds"
  ++ PyStr.nl ++ PyStr.nl
  ++ "STDOUT:" ++ PyStr.nl ++ or_else (stdout r) "(no output)" ++ PyStr.nl
  ++ PyStr.nl
  ++ "STDERR:" ++ PyStr.nl ++ or_else (stderr r) "(no errors)" ++ PyStr.nl
  ++ PyStr.nl
  ++ (if PyStr.truthy_opt validation_error
      then PyStr.nl ++ "VALIDATION ERROR:" ++ PyStr.nl
           ++ default "" validation_error ++ PyStr.nl ++ PyStr.nl
      else "")
  ++ rule ++ PyStr.nl.

Definition outcome_word (b : bool) : string :=
  if b then "success" else "failure".

Definition summary_entry (test_name : string) (script : path)
           (timestamp : string) (r : result) (expected : bool)
           (validation_error : option string) : string :=
  "[" ++ timestamp ++ "] " ++ status r expected validation_error ++ ": "
  ++ test_name ++ PyStr.nl
  ++ "  Script: " ++ PyPath.str script ++ PyStr.nl
  ++ "  Execution Time: " ++ format_2f E (execution_time r) ++ "s" ++ PyStr.nl
  ++ "  Return Code: " ++ PyStr.str_int (returncode r) ++ PyStr.nl
  ++ (if script_success r expected then ""
      else "  Script Status: Expected " ++ outcome_word expected
           ++ " but got " ++ outcome_word (success r) ++ PyStr.nl)
  ++ (if PyStr.truthy_opt validation_error
      then "  Validation Error: "
           ++ PyStr.first_line (default "" validation_error) ++ "..."
           ++ PyStr.nl
      else "")
  ++ (if PyStr.truthy (stderr r)
      then "  Error: " ++ PyStr.slice_to 100 (stderr r) ++ "..." ++ PyStr.nl
      else "")
  ++ PyStr.nl.

Definition log_test_result (test_name : string) (script : path)
           (r : result) (expected : bool)
           (validation_error : option string) (w : World) : outcome unit :=
  let w := match TEST_RUN_DIR w with
           | None => setup_logging w
           | Some _ => w
           end in
  match TEST_RUN_DIR w with
  | None => Raised (TypeError "unsupported operand type(s) for /") w
  | Some run_dir =>
      let test_log_file := run_dir <//> test_log_name test_name in
      let '(t, w) := datetime_now w in
      let timestamp := strftime_iso t in
      let w := write_file test_log_file
                 (test_log_content test_name script timestamp r expected
                    validation_error) w in
      match RESULT_LOG_FILE w with
      | None => Raised (TypeError "expected str, bytes or os.PathLike object") w
      | Some result_log =>
          Returned tt
            (append_file result_log
               (summary_entry test_name script timestamp r expected
                  validation_error) w)
      end
  end.

Definition finalize_logging (w : World) : World :=
  match RESULT_LOG_FILE w with
  | Some result_log =>
      if path_exists result_log w then
        let '(t, w') := datetime_now w in
        append_file result_log
          (rule ++ PyStr.nl ++ "Test Run Completed: " ++ strftime_iso t
           ++ PyStr.nl) w'
      else w
  | None => w
  end.

(** *** Test Case Loader *)

Definition normalize_entry (tc : config_entry) : test_case :=
  match tc with
  | EntryStr s =>
      {| name := Some ("Test " ++ PyPath.stem (PyPath.Path s));
         script_path := Some s;
         expected_success := None;
         timeout := None;
         expected_output := None;
         expected_result_file := None |}
  | EntryDict d => d
  end.

Definition normalized_test_cases (test_cases : list config_entry)
  : list test_case :=
  map normalize_entry test_cases.

(** Lines 121-125: the configuration file, in the working directory
    or else next to the harness. *)
Definition testcase_file (w : World) : path :=
  let p := PyPath.Path "Testcase.json" in
  if path_exists p w then p else script_dir E <//> "Testcase.json".

Definition load_test_cases (w : World) : outcome (list test_case) :=
  match read_file (testcase_file w) w with
  | inl (FileNotFoundError _) =>
      Raised (PytestFailed ("Testcase.json file not found at "
                            ++ PyPath.str (testcase_file w))) w
  | inl e => Raised e w
  | inr content =>
      match json_load E content with
      | None =>
          Raised (PytestFailed ("Testcase.json at "
                                ++ PyPath.str (testcase_file w)
                                ++ " contains invalid JSON")) w
      | Some test_cases => Returned (normalized_test_cases test_cases) w
      end
  end.

(** *** Script Executor *)

(** The path the executor runs: a relative path is tried under the
    harness directory first. *)
Definition executor_path (script : path) (w : World) : path :=
  if PyPath.is_absolute script then script
  else
    let full_path := script_dir E </> script in
    if path_exists full_path w then full_path else script.

(** The body of the [try] block. *)
Definition execute_body (script : path) (t : number) (w : World)
  : (exn + result) * World :=
  match chmod script w with
  | inl e => (inl e, w)
  | inr w =>
      match subprocess_run E (PyPath.str script) t w with
      | Completed rc out err elapsed =>
          (inr {| returncode := rc; stdout := out; stderr := err;
                  execution_time := Float elapsed;
                  success := Z.eqb rc 0 |}, w)
      | TimedOut => (inl TimeoutExpired, w)
      | LaunchFailed msg => (inl (OSError msg), w)
      end
  end.

Definition execute_bash_script (script : path) (t : number) (w : World)
  : result * World :=
  let script := executor_path script w in
  match execute_body script t w with
  | (inr r, w) => (r, w)
  | (inl TimeoutExpired, w) =>
      ({| returncode := -1; stdout := "";
          stderr := "Script execution timed out after " ++ str_number t
                    ++ " seconds";
          execution_time := t;
          success := false |}, w)
  | (inl e, w) =>
      ({| returncode := -1; stdout := ""; stderr := str_exn e;
          execution_time := Int 0; success := false |}, w)
  end.

(** *** Result Validator and test function *)

Definition get_name (tc : test_case) : string :=
  default "Unnamed test" (name tc).

Definition get_expected_success (tc : test_case) : bool :=
  default true (expected_success tc).

Definition get_timeout (tc : test_case) : number :=
  default (Int 30) (timeout tc).

(** Lines 219-230: the resolved path, and whether the local variable
    [script_dir] was assigned on the way. *)
Definition resolve_script (sp : string) (w : World) : path * bool :=
  let script := PyPath.Path sp in
  if PyPath.is_absolute script then (script, false)
  else
    let full_path := script_dir E </> script in
    if path_exists full_path w then (full_path, true)
    else
      let full_path_sh := script_dir E <//> (PyPath.str script ++ ".sh") in
      if path_exists full_path_sh w then (full_path_sh, true)
      else (script, true).

Definition not_found_msg (script : path) (test_name : string) : string :=
  "Script " ++ PyPath.str script ++ " not found for test " ++ test_name
  ++ ". Checked paths: " ++ PyPath.str script ++ ", "
  ++ PyPath.str (script_dir E </> script).

Definition success_mismatch_msg (test_name : string) (expected : bool)
  : string :=
  "Test " ++ test_name ++ " " ++ (if expected then "failed" else "succeeded")
  ++ " but was expected to " ++ (if expected then "succeed" else "fail")
  ++ ".".

Definition output_not_found_msg (eo : string) : string :=
  "Expected output '" ++ eo ++ "' not found in script output".

Definition file_mismatch_msg (f expected_content actual_output : string)
  : string :=
  "Expected output from " ++ f ++ " does not match actual output." ++ PyStr.nl
  ++ "Expected:" ++ PyStr.nl ++ expected_content ++ PyStr.nl
  ++ "Actual:" ++ PyStr.nl ++ actual_output.

Definition file_missing_msg (f : path) : string :=
  "Expected result file " ++ PyPath.str f ++ " not found".

(** Lines 245-251: the substring check; the value of [validation_error]
    after it. *)
Definition check_expected_output (tc : test_case) (r : result)
  : option string :=
  match expected_output tc with
  | Some eo =>
      if PyStr.truthy eo then
        if PyStr.contains eo (stdout r) then None
        else Some (output_not_found_msg eo)
      else None
  | None => None
  end.

Definition result_file_path (f : string) : path :=
  let p := PyPath.Path f in
  if PyPath.is_absolute p then p else script_dir E </> p.

(** Lines 254-274: the file-content check; it starts from the current
    [validation_error] and may assign it again. *)
Definition check_expected_result_file (tc : test_case) (r : result)
           (w : World) (validation_error : option string)
  : exn + option string :=
  match expected_result_file tc with
  | Some f =>
      if PyStr.truthy f then
        let p := result_file_path f in
        if path_exists p w then
          match read_file p w with
          | inl e => inl e
          | inr content =>
              let expected_content := PyStr.strip content in
              let actual_output := PyStr.strip (stdout r) in
              if String.eqb expected_content actual_output
              then inr validation_error
              else inr (Some (file_mismatch_msg f expected_content
                                actual_output))
          end
        else inr (Some (file_missing_msg p))
      else inr validation_error
  | None => inr validation_error
  end.

(** Lines 276-281: log the result, then re-raise the validation error. *)
Definition log_and_raise (test_name : string) (script : path) (r : result)
           (expected : bool) (validation_error : option string) (w : World)
  : outcome unit :=
  match log_test_result test_name script r expected validation_error w with
  | Raised e w => Raised e w
  | Returned _ w =>
      if PyStr.truthy_opt validation_error
      then Raised (AssertionError (default "" validation_error)) w
      else Returned tt w
  end.

Definition test_bash_script (tc : test_case) (w : World) : outcome unit :=
  let test_name := get_name tc in
  let expected := get_expected_success tc in
  let t := get_timeout tc in
  match script_path tc with
  | None =>
      Raised (AssertionError ("No script path specified for test "
                              ++ test_name)) w
  | Some sp =>
      let '(script, script_dir_bound) := resolve_script sp w in
      if negb (path_exists script w) then
        if script_dir_bound
        then Raised (AssertionError (not_found_msg script test_name)) w
        else Raised (UnboundLocalError "script_dir") w
      else
        let '(r, w) := execute_bash_script script t w in
        if negb (Bool.eqb (success r) expected) then
          Raised (AssertionError (success_mismatch_msg test_name expected)) w
        else
          let validation_error := check_expected_output tc r in
          match check_expected_result_file tc r w validation_error with
          | inl e => Raised e w
          | inr validation_error =>
              log_and_raise test_name script r expected validation_error w
          end
  end.

(** *** pytest hooks *)

(** Lines 154-159: the ids of the parametrized tests.  Every element of
    the loaded list is a dictionary here, so the [else] branch of line
    158 does not occur. *)
Definition test_ids (test_cases : list test_case) : list string :=
  imap (λ i tc, default ("test_" ++ PyStr.str_int (Z.of_nat i)) (name tc))
       test_cases.

(** [pytest_generate_tests]: the arguments of [metafunc.parametrize], or
    [None] when the test does not take the [test_case] fixture. *)
Definition pytest_generate_tests (fixturenames : list string) (w : World)
  : outcome (option (list test_case * list string)) :=
  if bool_decide ("test_case" ∈ fixturenames) then
    match load_test_cases w with
    | Raised e w => Raised e w
    | Returned test_cases w =>
        Returned (Some (test_cases, test_ids test_cases)) w
    end
  else Returned None w.

Definition pytest_configure (w : World) : World := setup_logging w.

Definition pytest_unconfigure (w : World) : World := finalize_logging w.

End Harness.

(** ** A concrete environment and file system, used in the examples *)

Module Sample.

Definition script_of (out : string) : proc_outcome :=
  if String.eqb out "/h/ok.sh" then Completed 0 "42" "" (1 # 100)
  else if String.eqb out "/h/out43.sh" then Completed 0 "43" "" (1 # 100)
  else if String.eqb out "/h/fail.sh" then Completed 1 "" "boom" (1 # 100)
  else if String.eqb out "/h/slow.sh" then TimedOut
  else if String.eqb out "/h/nobash.sh"
       then LaunchFailed "[Errno 2] No such file or directory: 'bash'"
  else Completed 0 "" "" (0 # 1).

Definition env : Env := {|
  script_dir := PyPath.Path "/h";
  cwd := PyPath.Path "/h";
  now := fun n => {| year := 2024; month := 1; day := 2;
                     hour := 3; minute := 4; second := n mod 60 |};
  format_2f := fun x => match x with
                        | Int z => PyStr.str_int z ++ ".00"
                        | Float _ => "0.01"
                        end;
  str_float := fun _ => "0.01";
  json_load := fun _ => Some [EntryStr "foo.sh"];
  chmod_error := fun _ _ => None;
  os_error_text := fun p _ => "[Errno 2] No such file or directory: '"
                              ++ PyPath.str p ++ "'";
  subprocess_run := fun script _ _ => script_of script
|}.

Definition file_system : gmap (list string) string :=
  list_to_map
    [ (["h"; "ok.sh"], "echo -n 42");
      (["h"; "out43.sh"], "echo -n 43");
      (["h"; "fail.sh"], "exit 1");
      (["h"; "slow.sh"], "sleep 100");
      (["h"; "nobash.sh"], "true");
      (["h"; "expected.txt"], "42" ++ PyStr.nl);
      (["h"; "Testcase.json"], "[foo.sh]") ].

Definition world : World := {|
  files := file_system;
  dirs := {[ ["h"] ]};
  TEST_RUN_DIR := None;
  RESULT_LOG_FILE := None;
  ticks := 0;
  console := [];
  trace := []
|}.

Definition descriptor (n sp : string) : test_case := {|
  name := Some n; script_path := Some sp; expected_success := None;
  timeout := None; expected_output := None; expected_result_file := None
|}.

(** A descriptor with both output expectations. *)
Definition checked (n sp : string) (eo f : option string) : test_case := {|
  name := Some n; script_path := Some sp; expected_success := None;
  timeout := None; expected_output := eo; expected_result_file := f
|}.

Definition ok_result : result := {|
  returncode := 0; stdout := "42"; stderr := "";
  execution_time := Float (1 # 100); success := true
|}.

Definition run_dir : path :=
  PyPath.Path "/h/logs/test_run_20240102_030400".



End Sample.

(** ** Specification vocabulary *)

(** The two logging globals agree: once a run directory is chosen the
    summary log is [result.log] inside it.  True at process start and
    kept by every operation of the harness. *)
Definition globals_ok (w : World) : bool :=
  match TEST_RUN_DIR w with
  | None => true
  | Some d => bool_decide (RESULT_LOG_FILE w = Some (d <//> "result.log"))
  end.

(** The run directory [setup_logging] chooses in [w]. *)
Definition run_dir_of (E : Env) (w : World) : path :=
  script_dir E <//> "logs"
  <//> ("test_run_" ++ strftime_compact (now E (ticks w))).

(** The header [setup_logging] writes when it starts in [w]. *)
Definition header_of (E : Env) (w : World) : string :=
  "Test Run Started: " ++ strftime_iso (now E (S (ticks w))) ++ PyStr.nl
  ++ rule ++ PyStr.nl ++ PyStr.nl.

(** Additive change of a file system: every file is still there and its
    old content is a prefix of the new one. *)
Definition additive (before after : gmap (list string) string) : Prop :=
  ∀ k c, before !! k = Some c →
         ∃ c', after !! k = Some c' ∧ String.prefix c c' = true.

(** The descriptor without its [expected_output] key. *)
Definition without_expected_output (tc : test_case) : test_case :=
  {| name := name tc; script_path := script_path tc;
     expected_success := expected_success tc; timeout := timeout tc;
     expected_output := None;
     expected_result_file := expected_result_file tc |}.

(** A string without the path separator. *)
Definition no_slash (s : string) : Prop :=
  Forall (λ c, c ≠ "/"%char) (PyStr.chars s).

(** The world after [log_test_result] has recorded a test in [w0], a
    world in which the run directory [d] is active: the per-test file is
    written, the summary log extended, one clock reading consumed. *)
Definition after_log (E : Env) (test_name : string) (script : path)
           (r : result) (expected : bool) (validation_error : option string)
           (d : path) (w0 : World) : World :=
  let timestamp := strftime_iso (now E (ticks w0)) in
  let kt := fs_key E (d <//> test_log_name test_name) in
  let ks := fs_key E (d <//> "result.log") in
  let content := test_log_content E test_name script timestamp r expected
                   validation_error in
  let entry := summary_entry E test_name script timestamp r expected
                 validation_error in
  let written := <[kt := content]> (files w0) in
  MkWorld (<[ks := default "" (written !! ks) ++ entry]> written)
          (dirs w0) (TEST_RUN_DIR w0) (RESULT_LOG_FILE w0) (S (ticks w0))
          (console w0) (trace w0 ++ [EvWrite kt content; EvAppend ks entry]).

(** The world after [log_test_result] has recorded a test in a
    consistent world [w], setting up the run first when none is active. *)
Definition logged (E : Env) (test_name : string) (script : path)
           (r : result) (expected : bool) (validation_error : option string)
           (w : World) : World :=
  after_log E test_name script r expected validation_error
    (default (run_dir_of E w) (TEST_RUN_DIR w)) (setup_logging E w).

(** The exception an outcome carries, if any. *)
Definition raised_exn {A} (o : outcome A) : option exn :=
  match o with
  | Returned _ _ => None
  | Raised e _ => Some e
  end.

(** The descriptor in which an empty [expected_output] or
    [expected_result_file] string is replaced by an absent key. *)
Definition drop_empty_expectations (tc : test_case) : test_case :=
  let nonempty o :=
    match o with
    | Some s => if PyStr.truthy s then Some s else None
    | None => None
    end in
  {| name := name tc; script_path := script_path tc;
     expected_success := expected_success tc; timeout := timeout tc;
     expected_output := nonempty (expected_output tc);
     expected_result_file := nonempty (expected_result_file tc) |}.

(** The lines [finalize_logging] appends when it starts in [w]. *)
Definition closing_of (E : Env) (w : World) : string :=
  rule ++ PyStr.nl ++ "Test Run Completed: "
  ++ strftime_iso (now E (ticks w)) ++ PyStr.nl.

(** [t] is [s] trimmed at both ends: [s] is [t] between two runs of
    whitespace, and [t] neither starts nor ends with whitespace. *)
Definition trimmed_of (s t : string) : Prop :=
  ∃ pre post,
    PyStr.chars s = (pre ++ PyStr.chars t ++ post)%list
    ∧ Forall (λ c, PyStr.isspace c = true) pre
    ∧ Forall (λ c, PyStr.isspace c = true) post
    ∧ (PyStr.isspace <$> head (PyStr.chars t)) ≠ Some true
    ∧ (PyStr.isspace <$> last (PyStr.chars t)) ≠ Some true.

(** A character of a sanitized file name. *)
Definition name_char (c : ascii) : Prop :=
  PyStr.isalnum c = true ∨ c = "-"%char ∨ c = "_"%char.

(** The result dictionary of the two [except] branches. *)
Definition failed_result (msg : string) (t : number) : result :=
  {| returncode := -1; stdout := ""; stderr := msg;
     execution_time := t; success := false |}.

(** * Properties *)

(** ** Script Executor *)

Section Executor.

Variable E : Env.

Lemma execute_body_timed_out script t w :
  path_exists E script w = true →
  chmod_error E script w = None →
  subprocess_run E (PyPath.str script) t
    (log_event (EvChmod (fs_key E script)) w) = TimedOut →
  fst (execute_body E script t w) = inl TimeoutExpired.
Proof.
  intros Hex Hch Hrun. unfold execute_body, chmod.
  rewrite Hex, Hch, Hrun. reflexivity.
Qed.

(** C3: a script whose run exceeds the timeout yields return code -1,
    success false, empty stdout, the timeout message on stderr and an
    execution time equal to the timeout value. *)
Theorem execute_bash_script_timeout script t w :
  let p := executor_path E script w in
  path_exists E p w = true →
  chmod_error E p w = None →
  subprocess_run E (PyPath.str p) t
    (log_event (EvChmod (fs_key E p)) w) = TimedOut →
  fst (execute_bash_script E script t w)
  = failed_result ("Script execution timed out after " ++ str_number E t
                   ++ " seconds") t.
Proof.
  intros p Hex Hch Hrun. unfold execute_bash_script. fold p.
  pose proof (execute_body_timed_out p t w Hex Hch Hrun) as Hb.
  destruct (execute_body E p t w) as [[e|r] w']; simpl in Hb; [|discriminate].
  injection Hb as ->. reflexivity.
Qed.

(** C4: any exception of the [try] block other than the timeout is
    caught: the call returns return code -1, success false, the error
    text on stderr and execution time 0. *)
Theorem execute_bash_script_launch_failure script t w e :
  fst (execute_body E (executor_path E script w) t w) = inl e →
  e ≠ TimeoutExpired →
  fst (execute_bash_script E script t w) = failed_result (str_exn e) (Int 0).
Proof.
  intros Hb Hne. unfold execute_bash_script.
  destruct (execute_body E _ t w) as [[e'|r] w']; simpl in Hb; [|discriminate].
  injection Hb as ->. destruct e; try reflexivity. congruence.
Qed.

(** The two launch failures the model knows: [chmod] refused, and
    [subprocess.run] unable to start bash. *)
Lemma execute_body_chmod_refused script t w msg :
  path_exists E script w = true →
  chmod_error E script w = Some msg →
  fst (execute_body E script t w) = inl (OSError msg).
Proof.
  intros Hex Hch. unfold execute_body, chmod. rewrite Hex, Hch. reflexivity.
Qed.

Lemma execute_body_launch_failed script t w msg :
  path_exists E script w = true →
  chmod_error E script w = None →
  subprocess_run E (PyPath.str script) t
    (log_event (EvChmod (fs_key E script)) w) = LaunchFailed msg →
  fst (execute_body E script t w) = inl (OSError msg).
Proof.
  intros Hex Hch Hrun. unfold execute_body, chmod.
  rewrite Hex, Hch, Hrun. reflexivity.
Qed.

(** The executor changes neither files nor globals. *)
Lemma execute_bash_script_frame script t w :
  let w' := snd (execute_bash_script E script t w) in
  files w' = files w ∧ dirs w' = dirs w
  ∧ TEST_RUN_DIR w' = TEST_RUN_DIR w
  ∧ RESULT_LOG_FILE w' = RESULT_LOG_FILE w
  ∧ (trace w' = trace w
     ∨ trace w' = (trace w
                   ++ [EvChmod (fs_key E (executor_path E script w))])%list).
Proof.
  unfold execute_bash_script, execute_body, chmod.
  destruct (path_exists E _ w); [|simpl; tauto].
  destruct (chmod_error E _ w); [simpl; tauto|].
  destruct (subprocess_run E _ t _); simpl; tauto.
Qed.

End Executor.

Lemma execute_bash_script_timeout_witness :
  fst (execute_bash_script Sample.env (PyPath.Path "slow.sh") (Int 30)
         Sample.world)
  = failed_result "Script execution timed out after 30 seconds" (Int 30).
Proof.
  apply (execute_bash_script_timeout Sample.env (PyPath.Path "slow.sh")
           (Int 30) Sample.world); reflexivity.
Defined.

Lemma execute_bash_script_launch_failure_witness :
  fst (execute_bash_script Sample.env (PyPath.Path "nobash.sh") (Int 30)
         Sample.world)
  = failed_result "[Errno 2] No such file or directory: 'bash'" (Int 0).
Proof.
  apply (execute_bash_script_launch_failure Sample.env
           (PyPath.Path "nobash.sh") (Int 30) Sample.world
           (OSError "[Errno 2] No such file or directory: 'bash'"));
    [reflexivity | discriminate].
Defined.

(** ** Run Logger *)

Section Logger.

Variable E : Env.

Lemma setup_logging_active w d :
  TEST_RUN_DIR w = Some d → setup_logging E w = w.
Proof. intros H. unfold setup_logging. rewrite H. reflexivity. Qed.

Lemma setup_logging_fresh w :
  TEST_RUN_DIR w = None →
  setup_logging E w
  = MkWorld
      (<[fs_key E (run_dir_of E w <//> "result.log") := header_of E w]>
         (files w))
      ({[fs_key E (run_dir_of E w)]}
         ∪ ({[fs_key E (script_dir E <//> "logs")]} ∪ dirs w))
      (Some (run_dir_of E w))
      (Some (run_dir_of E w <//> "result.log"))
      (S (S (ticks w)))
      (console w
         ++ ["Test logs will be saved to: " ++ PyPath.str (run_dir_of E w)])
      (trace w
         ++ [EvMkdir (fs_key E (script_dir E <//> "logs"));
             EvMkdir (fs_key E (run_dir_of E w));
             EvWrite (fs_key E (run_dir_of E w <//> "result.log"))
               (header_of E w)]).
Proof.
  intros H. unfold setup_logging. rewrite H. cbn.
  unfold print, write_file, log_event; cbn.
  rewrite <- !app_assoc. reflexivity.
Qed.

Lemma setup_logging_sets_run_dir w :
  TEST_RUN_DIR (setup_logging E w)
  = Some (default (run_dir_of E w) (TEST_RUN_DIR w)).
Proof.
  destruct (TEST_RUN_DIR w) as [d|] eqn:H.
  - rewrite (setup_logging_active w d H), H. reflexivity.
  - rewrite (setup_logging_fresh w H). reflexivity.
Qed.

Lemma setup_logging_globals_ok w :
  globals_ok w = true → globals_ok (setup_logging E w) = true.
Proof.
  intros Hok. destruct (TEST_RUN_DIR w) as [d|] eqn:H.
  - rewrite (setup_logging_active w d H). exact Hok.
  - rewrite (setup_logging_fresh w H). unfold globals_ok; cbn.
    apply bool_decide_eq_true. reflexivity.
Qed.


End Logger.

(** ** Paths of the log files *)

Section LogPaths.

Variable E : Env.

Lemma chars_app a b :
  PyStr.chars (a ++ b) = (PyStr.chars a ++ PyStr.chars b)%list.
Proof.
  unfold PyStr.chars. induction a as [|c a IH]; [reflexivity|].
  change (String c a ++ b) with (String c (a ++ b)). cbn.
  rewrite IH. reflexivity.
Qed.

Lemma chars_of_chars l : PyStr.chars (PyStr.of_chars l) = l.
Proof. apply list_ascii_of_string_of_list_ascii. Qed.

Lemma of_chars_chars s : PyStr.of_chars (PyStr.chars s) = s.
Proof. apply string_of_list_ascii_of_string. Qed.

Lemma split_chars_no_sep sep cur l :
  Forall (λ c, c ≠ sep) l →
  PyStr.split_chars sep cur l = [PyStr.of_chars (rev cur ++ l)].
Proof.
  intros H. revert cur. induction H as [|c l Hc _ IH]; intros cur; cbn.
  - rewrite app_nil_r. reflexivity.
  - apply Ascii.eqb_neq in Hc. rewrite Hc, IH. cbn.
    rewrite <- app_assoc. reflexivity.
Qed.

(** A non-empty name without a slash, other than [.], is a path of one
    component. *)
Lemma Path_single s :
  no_slash s → s ≠ "" → s ≠ "." → PyPath.Path s = MkPath "" [s].
Proof.
  intros Hs Hne Hdot. unfold PyPath.Path, PyPath.splitroot.
  assert (Hst : PyPath.starts_with_slash s = false).
  { destruct s as [|c s']; [reflexivity|]. cbn.
    apply Ascii.eqb_neq. inversion Hs; assumption. }
  rewrite Hst. cbn. unfold PyStr.split.
  rewrite (split_chars_no_sep "/" [] _ Hs). cbn. rewrite of_chars_chars.
  assert (Hk : PyPath.keep_part s = true).
  { unfold PyPath.keep_part. apply andb_true_intro.
    split; apply negb_true_iff, String.eqb_neq; assumption. }
  rewrite decide_True by exact Hk. reflexivity.
Qed.

Lemma fs_key_child d s :
  PyPath.Path s = MkPath "" [s] →
  fs_key E (d <//> s) = (fs_key E d ++ [s])%list.
Proof.
  intros Hp. rewrite Hp. unfold fs_key, PyPath.joinpath, PyPath.is_absolute.
  cbn. destruct (PyStr.truthy (anchor d)); cbn; [reflexivity|].
  destruct (PyStr.truthy (anchor (cwd E))); cbn;
    rewrite ?app_assoc; reflexivity.
Qed.

Lemma drop_while_Forall {A} (P : A → Prop) (p : A → bool) l :
  Forall P l → Forall P (PyStr.drop_while p l).
Proof.
  induction 1 as [|x l Hx Hl IH]; cbn; [constructor|].
  destruct (p x); [exact IH | constructor; assumption].
Qed.

Lemma safe_name_no_slash n : no_slash (safe_name n).
Proof.
  unfold no_slash, safe_name, PyStr.rstrip. rewrite !chars_of_chars.
  apply Forall_rev, drop_while_Forall, Forall_rev.
  rewrite ?chars_of_chars. apply Forall_forall. intros c Hc.
  apply list_elem_of_filter in Hc. destruct Hc as [Hc _].
  intros ->. vm_compute in Hc. discriminate.
Qed.

Lemma test_log_name_no_slash n : no_slash (test_log_name n).
Proof.
  unfold no_slash, test_log_name, PyStr.replace_char.
  rewrite chars_app, chars_of_chars. apply Forall_app. split.
  - apply Forall_map. eapply Forall_impl; [apply safe_name_no_slash|].
    intros c Hc. cbn. destruct (Ascii.eqb c " "); [discriminate | exact Hc].
  - repeat constructor; discriminate.
Qed.

Lemma string_length_app a b :
  String.length (a ++ b) = (String.length a + String.length b)%nat.
Proof.
  induction a as [|c a IH]; [reflexivity|].
  change (String c a ++ b) with (String c (a ++ b)). cbn.
  rewrite IH. reflexivity.
Qed.

Lemma test_log_name_long n : (4 ≤ String.length (test_log_name n))%nat.
Proof.
  unfold test_log_name. rewrite string_length_app. cbn. lia.
Qed.

Lemma Path_test_log_name n :
  PyPath.Path (test_log_name n) = MkPath "" [test_log_name n].
Proof.
  apply Path_single; [apply test_log_name_no_slash| |];
    intros H; pose proof (test_log_name_long n) as Hl;
    rewrite H in Hl; cbn in Hl; lia.
Qed.

Lemma Path_result_log : PyPath.Path "result.log" = MkPath "" ["result.log"].
Proof. reflexivity. Qed.

(** Different file names in one directory are different files. *)
Lemma log_key_ne d a b :
  PyPath.Path a = MkPath "" [a] → PyPath.Path b = MkPath "" [b] → a ≠ b →
  fs_key E (d <//> a) ≠ fs_key E (d <//> b).
Proof.
  intros Ha Hb Hne. rewrite (fs_key_child d a Ha), (fs_key_child d b Hb).
  intros H. apply app_inv_head in H. congruence.
Qed.

End LogPaths.

(** ** Recording a test *)

Section LogRecords.

Variable E : Env.

Lemma prefix_app a b : String.prefix a (a ++ b) = true.
Proof.
  induction a as [|c a IH]; [destruct b; reflexivity|].
  change (String c a ++ b) with (String c (a ++ b)). cbn.
  destruct (ascii_dec c c); [exact IH | congruence].
Qed.

Lemma prefix_refl a : String.prefix a a = true.
Proof.
  induction a as [|c a IH]; [reflexivity|]. cbn.
  destruct (ascii_dec c c); [exact IH | congruence].
Qed.

Lemma globals_ok_inv w d :
  globals_ok w = true → TEST_RUN_DIR w = Some d →
  RESULT_LOG_FILE w = Some (d <//> "result.log").
Proof.
  unfold globals_ok. intros Hok Hd. rewrite Hd in Hok.
  apply bool_decide_eq_true in Hok. exact Hok.
Qed.

(** The logger starts by making sure a run is active. *)
Lemma log_test_result_setup n s r x v w :
  log_test_result E n s r x v w
  = log_test_result E n s r x v (setup_logging E w).
Proof.
  destruct (TEST_RUN_DIR w) as [d|] eqn:H.
  - rewrite (setup_logging_active E w d H). reflexivity.
  - pose proof (setup_logging_sets_run_dir E w) as H1.
    unfold log_test_result. rewrite H.
    repeat (rewrite H1; cbv beta iota zeta). reflexivity.
Qed.

Lemma log_test_result_active n s r x v w d :
  TEST_RUN_DIR w = Some d →
  RESULT_LOG_FILE w = Some (d <//> "result.log") →
  log_test_result E n s r x v w = Returned tt (after_log E n s r x v d w).
Proof.
  intros Hd Hr. unfold log_test_result. rewrite Hd. cbn. rewrite Hr.
  unfold after_log, append_file, log_event; cbn.
  rewrite Hd, Hr, <- app_assoc. reflexivity.
Qed.

(** In a consistent world the logger always returns, having written
    one per-test file and one summary entry. *)
Lemma log_test_result_returns n s r x v w :
  globals_ok w = true →
  log_test_result E n s r x v w
  = Returned tt (after_log E n s r x v
                   (default (run_dir_of E w) (TEST_RUN_DIR w))
                   (setup_logging E w)).
Proof.
  intros Hok. rewrite log_test_result_setup.
  apply log_test_result_active.
  - apply setup_logging_sets_run_dir.
  - apply globals_ok_inv.
    + apply setup_logging_globals_ok, Hok.
    + apply setup_logging_sets_run_dir.
Qed.

(** Recording a test keeps the globals consistent. *)
Lemma log_test_result_globals_ok n s r x v w :
  globals_ok w = true →
  globals_ok (final_world (log_test_result E n s r x v w)) = true.
Proof.
  intros H. rewrite (log_test_result_returns n s r x v w H).
  exact (setup_logging_globals_ok E w H).
Qed.

End LogRecords.

Section LogFrame.

Variable E : Env.

Lemma after_log_files n s r x v d w k :
  k ≠ fs_key E (d <//> test_log_name n) →
  k ≠ fs_key E (d <//> "result.log") →
  files (after_log E n s r x v d w) !! k = files w !! k.
Proof.
  intros Hk Hs. unfold after_log; cbn [files].
  rewrite !lookup_insert_ne by congruence. reflexivity.
Qed.

Lemma after_log_test_file n s r x v d w :
  test_log_name n ≠ "result.log" →
  files (after_log E n s r x v d w) !! fs_key E (d <//> test_log_name n)
  = Some (test_log_content E n s (strftime_iso (now E (ticks w))) r x v).
Proof.
  intros Hn. unfold after_log; cbn [files].
  rewrite lookup_insert_ne, lookup_insert_eq; [reflexivity|].
  apply not_eq_sym, log_key_ne;
    [apply Path_test_log_name | apply Path_result_log | exact Hn].
Qed.

Lemma after_log_summary n s r x v d w :
  test_log_name n ≠ "result.log" →
  files (after_log E n s r x v d w) !! fs_key E (d <//> "result.log")
  = Some (default "" (files w !! fs_key E (d <//> "result.log"))
          ++ summary_entry E n s (strftime_iso (now E (ticks w))) r x v).
Proof.
  intros Hn. unfold after_log; cbn [files].
  rewrite lookup_insert_eq, lookup_insert_ne; [reflexivity|].
  apply log_key_ne;
    [apply Path_test_log_name | apply Path_result_log | exact Hn].
Qed.

(** C7 (amended): for recorded test cases whose log-file names differ
    from each other and from [result.log], a later logging operation
    neither overwrites nor deletes what was logged before: the earlier
    per-test file is unchanged, the summary log is only extended, and
    no file but the later test's own log is rewritten. *)
Theorem later_log_keeps_earlier_logs n1 n2 s1 s2 r1 r2 x1 x2 v1 v2 w :
  globals_ok w = true →
  test_log_name n1 ≠ test_log_name n2 →
  test_log_name n1 ≠ "result.log" →
  test_log_name n2 ≠ "result.log" →
  let w1 := final_world (log_test_result E n1 s1 r1 x1 v1 w) in
  let w2 := final_world (log_test_result E n2 s2 r2 x2 v2 w1) in
  let d := default (run_dir_of E w) (TEST_RUN_DIR w) in
  let k1 := fs_key E (d <//> test_log_name n1) in
  let k2 := fs_key E (d <//> test_log_name n2) in
  let ks := fs_key E (d <//> "result.log") in
  let c1 := test_log_content E n1 s1
              (strftime_iso (now E (ticks (setup_logging E w)))) r1 x1 v1 in
  let e2 := summary_entry E n2 s2 (strftime_iso (now E (ticks w1)))
              r2 x2 v2 in
  (files w1 !! k1 = Some c1 ∧ files w2 !! k1 = Some c1)
  ∧ (∃ old, files w1 !! ks = Some old ∧ files w2 !! ks = Some (old ++ e2))
  ∧ (∀ k, k ≠ k2 → k ≠ ks → files w2 !! k = files w1 !! k)
  ∧ additive (delete k2 (files w1)) (files w2)
  ∧ dirs w2 = dirs w1.
Proof.
  intros Hok Hne H1 H2 w1 w2 d k1 k2 ks c1 e2.
  assert (Hw1 : w1 = after_log E n1 s1 r1 x1 v1 d (setup_logging E w)).
  { unfold w1. rewrite (log_test_result_returns E _ _ _ _ _ _ Hok).
    reflexivity. }
  assert (Hd : TEST_RUN_DIR w1 = Some d).
  { rewrite Hw1. apply setup_logging_sets_run_dir. }
  assert (Hr : RESULT_LOG_FILE w1 = Some (d <//> "result.log")).
  { rewrite Hw1. apply globals_ok_inv.
    - apply setup_logging_globals_ok, Hok.
    - apply setup_logging_sets_run_dir. }
  assert (Hw2 : w2 = after_log E n2 s2 r2 x2 v2 d w1).
  { unfold w2. rewrite (log_test_result_active E _ _ _ _ _ _ d Hd Hr).
    reflexivity. }
  assert (Hk12 : k1 ≠ k2).
  { apply log_key_ne; [apply Path_test_log_name ..| exact Hne]. }
  assert (Hk1s : k1 ≠ ks).
  { apply log_key_ne;
      [apply Path_test_log_name | apply Path_result_log | exact H1]. }
  assert (Hf1 : files w1 !! k1 = Some c1).
  { rewrite Hw1. apply after_log_test_file, H1. }
  assert (Hs2 : files w2 !! ks = Some (default "" (files w1 !! ks) ++ e2)).
  { rewrite Hw2. apply after_log_summary, H2. }
  assert (Hs1 : is_Some (files w1 !! ks)).
  { unfold ks. rewrite Hw1, after_log_summary by exact H1. eauto. }
  assert (Hframe : ∀ k, k ≠ k2 → k ≠ ks → files w2 !! k = files w1 !! k).
  { intros k Hk2 Hks. rewrite Hw2. apply after_log_files; assumption. }
  split; [|split; [|split; [|split]]].
  - split; [exact Hf1|]. rewrite Hframe by assumption. exact Hf1.
  - destruct Hs1 as [old Hold]. exists old. split; [exact Hold|].
    rewrite Hs2, Hold. reflexivity.
  - exact Hframe.
  - intros k c Hk. apply lookup_delete_Some in Hk as [Hk2 Hk].
    destruct (decide (k = ks)) as [->|Hks].
    + exists (c ++ e2). split; [|apply prefix_app].
      rewrite Hs2, Hk. reflexivity.
    + exists c. split; [|apply prefix_refl].
      rewrite Hframe by congruence. exact Hk.
  - rewrite Hw2. reflexivity.
Qed.

End LogFrame.

Lemma later_log_keeps_earlier_logs_witness :
  let script := PyPath.Path "/h/ok.sh" in
  let w1 := final_world (log_test_result Sample.env "first" script
                           Sample.ok_result true None Sample.world) in
  let w2 := final_world (log_test_result Sample.env "second" script
                           Sample.ok_result true None w1) in
  additive (delete (fs_key Sample.env (Sample.run_dir <//> "second.log"))
              (files w1))
           (files w2).
Proof.
  intros script w1 w2.
  apply (later_log_keeps_earlier_logs Sample.env "first" "second" script script
           Sample.ok_result Sample.ok_result true true None None Sample.world);
    [reflexivity | vm_compute; discriminate ..].
Defined.

(** C7 as stated fails: two different test cases, named [a b] and [a_b],
    share the log file [a_b.log]; recording the second one replaces what
    the first one wrote. *)
Lemma colliding_names_overwrite_log :
  let tc1 := Sample.descriptor "a b" "ok.sh" in
  let tc2 := Sample.descriptor "a_b" "ok.sh" in
  let w1 := final_world (test_bash_script Sample.env tc1 Sample.world) in
  let w2 := final_world (test_bash_script Sample.env tc2 w1) in
  tc1 ≠ tc2 ∧ ¬ additive (files w1) (files w2).
Proof.
  intros tc1 tc2 w1 w2. split; [discriminate|]. intros H.
  pose (k := fs_key Sample.env (Sample.run_dir <//> "a_b.log")).
  destruct (files w1 !! k) as [c|] eqn:Hc; [|vm_compute in Hc; discriminate].
  destruct (H k c Hc) as (c' & Hc' & Hp).
  vm_compute in Hc. injection Hc as <-.
  vm_compute in Hc'. injection Hc' as <-.
  vm_compute in Hp. discriminate.
Qed.

(** A test case named [result] has the summary log itself as its log
    file, so the header of the run is lost as well. *)
Example result_named_test_overwrites_summary :
  let w1 := setup_logging Sample.env Sample.world in
  let w2 := final_world
              (test_bash_script Sample.env (Sample.descriptor "result" "ok.sh")
                 w1) in
  ¬ additive (files w1) (files w2).
Proof.
  intros w1 w2 H.
  pose (k := fs_key Sample.env (Sample.run_dir <//> "result.log")).
  destruct (files w1 !! k) as [c|] eqn:Hc; [|vm_compute in Hc; discriminate].
  destruct (H k c Hc) as (c' & Hc' & Hp).
  vm_compute in Hc. injection Hc as <-.
  vm_compute in Hc'. injection Hc' as <-.
  vm_compute in Hp. discriminate.
Qed.

(** ** Result Validator and test function *)

Section TestFunction.

Variable E : Env.

(** The test function once the script has been found. *)
Lemma test_bash_script_found tc w sp :
  script_path tc = Some sp →
  path_exists E (resolve_script E sp w).1 w = true →
  test_bash_script E tc w
  = let script := (resolve_script E sp w).1 in
    let rw := execute_bash_script E script (get_timeout tc) w in
    if negb (Bool.eqb (success rw.1) (get_expected_success tc)) then
      Raised (AssertionError (success_mismatch_msg (get_name tc)
                                (get_expected_success tc))) rw.2
    else
      match check_expected_result_file E tc rw.1 rw.2
              (check_expected_output tc rw.1) with
      | inl e => Raised e rw.2
      | inr validation_error =>
          log_and_raise E (get_name tc) script rw.1
            (get_expected_success tc) validation_error rw.2
      end.
Proof.
  intros Hsp Hex. unfold test_bash_script. rewrite Hsp.
  destruct (resolve_script E sp w) as [script b]. cbn [fst] in *.
  rewrite Hex. cbn [negb].
  destruct (execute_bash_script E script (get_timeout tc) w) as [r w1].
  reflexivity.
Qed.

Lemma execute_bash_script_globals_ok script t w :
  globals_ok w = true →
  globals_ok (execute_bash_script E script t w).2 = true.
Proof.
  intros H. destruct (execute_bash_script_frame E script t w)
    as (_ & _ & Hd & Hr & _).
  unfold globals_ok in *. rewrite Hd, Hr. exact H.
Qed.

Lemma log_and_raise_ok n s r x v w :
  globals_ok w = true →
  log_and_raise E n s r x v w
  = if PyStr.truthy_opt v
    then Raised (AssertionError (default "" v)) (logged E n s r x v w)
    else Returned tt (logged E n s r x v w).
Proof.
  intros H. unfold log_and_raise.
  rewrite (log_test_result_returns E n s r x v w H). reflexivity.
Qed.

Lemma success_differs (a b : bool) :
  a ≠ b ↔ negb (Bool.eqb a b) = true.
Proof. destruct a, b; cbn; split; congruence. Qed.

(** C2: the success check comes first.  Whenever the actual success
    differs from the expected one, the test fails with the success
    mismatch message, whatever the substring and file-content checks
    would have found. *)
Theorem success_mismatch_reported_first tc w sp :
  script_path tc = Some sp →
  let script := (resolve_script E sp w).1 in
  path_exists E script w = true →
  let rw := execute_bash_script E script (get_timeout tc) w in
  success rw.1 ≠ get_expected_success tc →
  test_bash_script E tc w
  = Raised (AssertionError (success_mismatch_msg (get_name tc)
                              (get_expected_success tc))) rw.2.
Proof.
  intros Hsp script Hex rw Hne.
  rewrite (test_bash_script_found tc w sp Hsp Hex). cbv zeta.
  apply success_differs in Hne. fold script. fold rw. rewrite Hne.
  reflexivity.
Qed.

(** After a success mismatch nothing has been logged: files, globals
    and clock are as the executor left them. *)
Lemma success_mismatch_leaves_no_log tc w sp :
  script_path tc = Some sp →
  let script := (resolve_script E sp w).1 in
  path_exists E script w = true →
  let rw := execute_bash_script E script (get_timeout tc) w in
  success rw.1 ≠ get_expected_success tc →
  let w' := final_world (test_bash_script E tc w) in
  files w' = files w ∧ dirs w' = dirs w
  ∧ TEST_RUN_DIR w' = TEST_RUN_DIR w
  ∧ (trace w' = trace w
     ∨ trace w' = (trace w
                   ++ [EvChmod (fs_key E (executor_path E script w))])%list).
Proof.
  intros Hsp script Hex rw Hne w'. unfold w'.
  rewrite (test_bash_script_found tc w sp Hsp Hex). cbv zeta.
  apply success_differs in Hne. fold script. fold rw. rewrite Hne.
  cbn [final_world].
  destruct (execute_bash_script_frame E script (get_timeout tc) w)
    as (Hf & Hd & Ht & _ & Htr). tauto.
Qed.

(** X17: when the success check passes and the expected-result file can
    be read, the result is logged exactly once, whatever the validation
    found: one per-test file written, one summary entry appended. *)
Lemma matching_success_is_logged_once tc w sp v :
  script_path tc = Some sp →
  globals_ok w = true →
  let script := (resolve_script E sp w).1 in
  path_exists E script w = true →
  let rw := execute_bash_script E script (get_timeout tc) w in
  success rw.1 = get_expected_success tc →
  check_expected_result_file E tc rw.1 rw.2 (check_expected_output tc rw.1)
  = inr v →
  let w0 := setup_logging E rw.2 in
  let d := default (run_dir_of E rw.2) (TEST_RUN_DIR rw.2) in
  let timestamp := strftime_iso (now E (ticks w0)) in
  trace (final_world (test_bash_script E tc w))
  = (trace w0
       ++ [EvWrite (fs_key E (d <//> test_log_name (get_name tc)))
             (test_log_content E (get_name tc) script timestamp rw.1
                (get_expected_success tc) v);
           EvAppend (fs_key E (d <//> "result.log"))
             (summary_entry E (get_name tc) script timestamp rw.1
                (get_expected_success tc) v)])%list.
Proof.
  intros Hsp Hok script Hex rw Hs Hv w0 d timestamp.
  rewrite (test_bash_script_found tc w sp Hsp Hex). cbv zeta.
  fold script. fold rw. rewrite Hs, Bool.eqb_reflx. cbn [negb].
  rewrite Hv, log_and_raise_ok
    by (apply execute_bash_script_globals_ok, Hok).
  destruct (PyStr.truthy_opt v); reflexivity.
Qed.

(** X18: the test function keeps the globals consistent, whatever it
    returns or raises. *)
Lemma test_bash_script_globals_ok tc w :
  globals_ok w = true →
  globals_ok (final_world (test_bash_script E tc w)) = true.
Proof.
  intros Hok. unfold test_bash_script.
  destruct (script_path tc) as [sp|]; [|exact Hok].
  destruct (resolve_script E sp w) as [script b].
  destruct (path_exists E script w); cbn [negb];
    [|destruct b; exact Hok].
  pose proof (execute_bash_script_globals_ok script (get_timeout tc) w Hok)
    as Hok1.
  destruct (execute_bash_script E script (get_timeout tc) w) as [r w1].
  cbn [snd] in Hok1.
  destruct (negb (Bool.eqb (success r) (get_expected_success tc)));
    [exact Hok1|].
  destruct (check_expected_result_file E tc r w1 (check_expected_output tc r))
    as [e|v]; [exact Hok1|].
  rewrite (log_and_raise_ok _ _ _ _ v w1 Hok1).
  destruct (PyStr.truthy_opt v);
    exact (setup_logging_globals_ok E w1 Hok1).
Qed.

End TestFunction.

Lemma success_mismatch_reported_first_witness :
  let tc := Sample.checked "t" "fail.sh" (Some "never printed")
              (Some "missing.txt") in
  test_bash_script Sample.env tc Sample.world
  = Raised (AssertionError "Test t failed but was expected to succeed.")
      (execute_bash_script Sample.env (PyPath.Path "/h/fail.sh") (Int 30)
         Sample.world).2.
Proof.
  intros tc.
  apply (success_mismatch_reported_first Sample.env tc Sample.world "fail.sh");
    [reflexivity | reflexivity | vm_compute; discriminate].
Defined.

(** C1: a test whose script fails although success was expected raises
    the success-mismatch assertion before [log_test_result] is reached:
    no per-test file is written and no summary entry appended (the only
    effect is the [chmod] of the executor). *)
Theorem success_mismatch_is_not_logged :
  let tc := Sample.descriptor "t" "fail.sh" in
  let o := test_bash_script Sample.env tc Sample.world in
  o = Raised (AssertionError "Test t failed but was expected to succeed.")
        (final_world o)
  ∧ files (final_world o) = files Sample.world
  ∧ dirs (final_world o) = dirs Sample.world
  ∧ TEST_RUN_DIR (final_world o) = None
  ∧ trace (final_world o) = [EvChmod ["h"; "fail.sh"]].
Proof.
  intros tc o.
  pose (script := PyPath.Path "/h/fail.sh").
  assert (Ho : o = Raised (AssertionError
                             "Test t failed but was expected to succeed.")
                     (execute_bash_script Sample.env script (Int 30)
                        Sample.world).2).
  { unfold o.
    rewrite (test_bash_script_found Sample.env tc Sample.world "fail.sh"
               eq_refl eq_refl).
    reflexivity. }
  clearbody o. subst o. cbn [final_world].
  destruct (execute_bash_script_frame Sample.env script (Int 30) Sample.world)
    as (Hf & Hd & Ht & _ & _).
  repeat split; assumption.
Qed.

(** The same script, expected to fail, is logged: the logger itself
    handles both outcomes. *)
Example expected_failure_is_logged :
  let tc := {| name := Some "t"; script_path := Some "fail.sh";
               expected_success := Some false; timeout := None;
               expected_output := None; expected_result_file := None |} in
  let o := test_bash_script Sample.env tc Sample.world in
  (if o is Returned _ _ then true else false) = true
  ∧ is_Some (files (final_world o)
               !! fs_key Sample.env (Sample.run_dir <//> "t.log")).
Proof. vm_compute. split; eauto. Qed.


(** ** Script lookup *)

Section ScriptLookup.

Variable E : Env.

(** A relative path that is found nowhere fails the assertion of line
    232 with the not-found message, and nothing else happens. *)
Lemma missing_relative_script tc w sp :
  script_path tc = Some sp →
  PyPath.is_absolute (PyPath.Path sp) = false →
  path_exists E (resolve_script E sp w).1 w = false →
  test_bash_script E tc w
  = Raised (AssertionError (not_found_msg E (PyPath.Path sp) (get_name tc))) w.
Proof.
  intros Hsp Hrel Hex. unfold test_bash_script. rewrite Hsp.
  unfold resolve_script in *. rewrite Hrel in *.
  destruct (path_exists E (script_dir E </> PyPath.Path sp) w) eqn:H1.
  { cbn [fst] in Hex. congruence. }
  destruct (path_exists E
              (script_dir E <//> (PyPath.str (PyPath.Path sp) ++ ".sh")) w)
    eqn:H2.
  { cbn [fst] in Hex. congruence. }
  cbn [fst] in Hex. rewrite Hex. reflexivity.
Qed.

(** An absolute path that does not exist never reaches the message:
    evaluating it reads the unassigned local [script_dir]. *)
Lemma missing_absolute_script tc w sp :
  script_path tc = Some sp →
  PyPath.is_absolute (PyPath.Path sp) = true →
  path_exists E (PyPath.Path sp) w = false →
  test_bash_script E tc w = Raised (UnboundLocalError "script_dir") w.
Proof.
  intros Hsp Habs Hex. unfold test_bash_script. rewrite Hsp.
  unfold resolve_script. rewrite Habs, Hex. reflexivity.
Qed.

End ScriptLookup.

Example missing_relative_script_message :
  test_bash_script Sample.env (Sample.descriptor "t" "nope") Sample.world
  = Raised (AssertionError
              "Script nope not found for test t. Checked paths: nope, /h/nope")
      Sample.world.
Proof. reflexivity. Qed.

(** ** Output validation *)

Section Validation.

Variable E : Env.

Lemma truthy_file_mismatch_msg f a b :
  PyStr.truthy (file_mismatch_msg f a b) = true.
Proof. reflexivity. Qed.

Lemma truthy_file_missing_msg p :
  PyStr.truthy (file_missing_msg p) = true.
Proof. reflexivity. Qed.

Lemma is_file_lookup p w c :
  files w !! fs_key E p = Some c → path_exists E p w = true.
Proof.
  intros H. unfold path_exists, is_file. rewrite H.
  rewrite bool_decide_eq_true_2 by eauto. reflexivity.
Qed.

Lemma not_exists_lookup p w :
  files w !! fs_key E p = None → is_dir E p w = false →
  path_exists E p w = false.
Proof.
  intros H Hd. unfold path_exists, is_file. rewrite H, Hd.
  rewrite bool_decide_eq_false_2; [reflexivity|].
  intros [c Hc]. discriminate.
Qed.

(** What the file-content check computes, by the state of the file. *)
Lemma check_expected_result_file_cases tc r w v f :
  expected_result_file tc = Some f → PyStr.truthy f = true →
  let p := result_file_path E f in
  check_expected_result_file E tc r w v
  = match files w !! fs_key E p with
    | Some content =>
        if String.eqb (PyStr.strip content) (PyStr.strip (stdout r))
        then inr v
        else inr (Some (file_mismatch_msg f (PyStr.strip content)
                          (PyStr.strip (stdout r))))
    | None =>
        if is_dir E p w
        then inl (OSError (os_error_text E p w))
        else inr (Some (file_missing_msg p))
    end.
Proof.
  intros Hf Ht p. unfold check_expected_result_file. rewrite Hf, Ht.
  fold p. destruct (files w !! fs_key E p) as [c|] eqn:Hc.
  - rewrite (is_file_lookup p w c Hc). unfold read_file. rewrite Hc.
    reflexivity.
  - destruct (is_dir E p w) eqn:Hd.
    + unfold path_exists. rewrite Hd, orb_true_r.
      unfold read_file. rewrite Hc, Hd. reflexivity.
    + rewrite (not_exists_lookup p w Hc Hd). reflexivity.
Qed.

Lemma drop_while_split {A} (p : A → bool) l :
  ∃ pre, l = (pre ++ PyStr.drop_while p l)%list
         ∧ Forall (λ c, p c = true) pre
         ∧ (p <$> head (PyStr.drop_while p l)) ≠ Some true.
Proof.
  induction l as [|c l (pre & Hl & Hpre & Hhd)]; cbn.
  - exists []. repeat split; [constructor | discriminate].
  - destruct (p c) eqn:Hc.
    + exists (c :: pre). cbn. rewrite <- Hl.
      repeat split; [constructor; assumption | exact Hhd].
    + exists []. cbn. repeat split; [constructor|]. congruence.
Qed.

(** [strip] removes the whitespace at both ends, and nothing else. *)
Lemma strip_trimmed s : trimmed_of s (PyStr.strip s).
Proof.
  unfold trimmed_of, PyStr.strip, PyStr.rstrip, PyStr.lstrip.
  rewrite !chars_of_chars.
  destruct (drop_while_split PyStr.isspace (PyStr.chars s))
    as (pre & Hs & Hpre & Hhd).
  set (m := PyStr.drop_while PyStr.isspace (PyStr.chars s)) in *.
  destruct (drop_while_split PyStr.isspace (rev m)) as (tl & Hm & Htl & Hlast).
  set (k := PyStr.drop_while PyStr.isspace (rev m)) in *.
  assert (Hm' : m = (rev k ++ rev tl)%list).
  { rewrite <- (rev_involutive m), Hm, rev_app_distr. reflexivity. }
  exists pre, (rev tl). repeat split.
  - rewrite <- Hm'. exact Hs.
  - exact Hpre.
  - apply Forall_rev. exact Htl.
  - destruct (rev k) as [|c l'] eqn:Hk; [discriminate|].
    rewrite Hm' in Hhd. exact Hhd.
  - destruct k as [|c k']; [discriminate|].
    cbn [rev head fmap option_fmap option_map] in *.
    rewrite last_snoc. exact Hlast.
Qed.

(** C8: with [expected_result_file] set (and no substring expectation),
    a test whose success matches passes exactly when the file content
    and the stdout are equal after both have been trimmed of leading and
    trailing whitespace; otherwise it is logged as FAILED and fails with
    the message that holds the trimmed expected content and the trimmed
    actual output; a file that does not exist is a validation error of
    its own.  Trimming makes a file holding 42 and a newline equal to
    the output 42, and different from the output 43. *)
Theorem file_content_check tc w sp f :
  script_path tc = Some sp →
  expected_output tc = None →
  expected_result_file tc = Some f →
  PyStr.truthy f = true →
  globals_ok w = true →
  let script := (resolve_script E sp w).1 in
  path_exists E script w = true →
  let r := (execute_bash_script E script (get_timeout tc) w).1 in
  let w1 := (execute_bash_script E script (get_timeout tc) w).2 in
  let expected := get_expected_success tc in
  success r = expected →
  let p := result_file_path E f in
  let logged_with v := logged E (get_name tc) script r expected v w1 in
  match files w1 !! fs_key E p with
  | Some content =>
      let expected_content := PyStr.strip content in
      let actual_output := PyStr.strip (stdout r) in
      if String.eqb expected_content actual_output then
        status r expected None = "PASSED"
        ∧ test_bash_script E tc w = Returned tt (logged_with None)
      else
        let msg := "Expected output from " ++ f
                   ++ " does not match actual output." ++ PyStr.nl
                   ++ "Expected:" ++ PyStr.nl ++ expected_content ++ PyStr.nl
                   ++ "Actual:" ++ PyStr.nl ++ actual_output in
        status r expected (Some msg) = "FAILED"
        ∧ test_bash_script E tc w
          = Raised (AssertionError msg) (logged_with (Some msg))
  | None =>
      if is_dir E p w1 then
        test_bash_script E tc w = Raised (OSError (os_error_text E p w1)) w1
      else
        let msg := "Expected result file " ++ PyPath.str p ++ " not found" in
        status r expected (Some msg) = "FAILED"
        ∧ test_bash_script E tc w
          = Raised (AssertionError msg) (logged_with (Some msg))
  end
  ∧ (∀ s, trimmed_of s (PyStr.strip s))
  ∧ PyStr.strip ("42" ++ PyStr.nl) = PyStr.strip "42"
  ∧ PyStr.strip ("42" ++ PyStr.nl) ≠ PyStr.strip "43".
Proof.
  intros Hsp Heo Hf Ht Hok script Hex r w1 expected Hs p logged_with.
  split; [|split; [exact strip_trimmed|split;
                   [reflexivity | vm_compute; discriminate]]].
  assert (Hok1 : globals_ok w1 = true)
    by apply execute_bash_script_globals_ok, Hok.
  assert (Hst : ∀ v, status r expected v
                     = match v with None => "PASSED" | Some _ => "FAILED" end).
  { intros v. unfold status, overall_success, script_success.
    rewrite Hs, Bool.eqb_reflx. destruct v; reflexivity. }
  rewrite (test_bash_script_found E tc w sp Hsp Hex). cbv zeta.
  fold script. fold r. fold w1. fold expected.
  rewrite Hs, Bool.eqb_reflx. cbn [negb].
  rewrite (check_expected_result_file_cases tc r w1 _ f Hf Ht). fold p.
  assert (Hco : check_expected_output tc r = None).
  { unfold check_expected_output. rewrite Heo. reflexivity. }
  rewrite Hco.
  destruct (files w1 !! fs_key E p) as [content|].
  - destruct (String.eqb (PyStr.strip content) (PyStr.strip (stdout r))).
    + rewrite Hst, (log_and_raise_ok E _ _ _ _ _ _ Hok1). split; reflexivity.
    + cbv zeta. rewrite Hst, (log_and_raise_ok E _ _ _ _ _ _ Hok1).
      split; reflexivity.
  - destruct (is_dir E p w1); [reflexivity|].
    cbv zeta. rewrite Hst, (log_and_raise_ok E _ _ _ _ _ _ Hok1).
    split; reflexivity.
Qed.

Lemma check_expected_result_file_overwrites tc r w msg v :
  check_expected_result_file E tc r w None = inr (Some msg) →
  check_expected_result_file E tc r w v = inr (Some msg).
Proof.
  unfold check_expected_result_file.
  destruct (expected_result_file tc) as [f|]; [|discriminate].
  destruct (PyStr.truthy f); [|discriminate].
  destruct (path_exists E (result_file_path E f) w); [|tauto].
  destruct (read_file E (result_file_path E f) w) as [e|c]; [tauto|].
  destruct (String.eqb (PyStr.strip c) (PyStr.strip (stdout r)));
    [discriminate | tauto].
Qed.

(** C10: when the substring check and the file-content check both
    fail, the error of the file-content check replaces the one of the
    substring check: the test is logged with the file-content message
    (in the per-test file and in the summary entry) and fails with it,
    exactly as if [expected_output] had not been given. *)
Theorem file_error_replaces_substring_error tc w sp eo f :
  script_path tc = Some sp →
  globals_ok w = true →
  let script := (resolve_script E sp w).1 in
  path_exists E script w = true →
  let r := (execute_bash_script E script (get_timeout tc) w).1 in
  let w1 := (execute_bash_script E script (get_timeout tc) w).2 in
  let expected := get_expected_success tc in
  success r = expected →
  expected_output tc = Some eo →
  PyStr.truthy eo = true →
  PyStr.contains eo (stdout r) = false →
  expected_result_file tc = Some f →
  PyStr.truthy f = true →
  let p := result_file_path E f in
  match files w1 !! fs_key E p with
  | Some content => PyStr.strip content ≠ PyStr.strip (stdout r)
  | None => is_dir E p w1 = false
  end →
  let substring_msg :=
    "Expected output '" ++ eo ++ "' not found in script output" in
  let msg :=
    match files w1 !! fs_key E p with
    | Some content =>
        "Expected output from " ++ f ++ " does not match actual output."
        ++ PyStr.nl ++ "Expected:" ++ PyStr.nl ++ PyStr.strip content
        ++ PyStr.nl ++ "Actual:" ++ PyStr.nl ++ PyStr.strip (stdout r)
    | None => "Expected result file " ++ PyPath.str p ++ " not found"
    end in
  let w0 := setup_logging E w1 in
  let d := default (run_dir_of E w1) (TEST_RUN_DIR w1) in
  let timestamp := strftime_iso (now E (ticks w0)) in
  let w' := final_world (test_bash_script E tc w) in
  check_expected_output tc r = Some substring_msg
  ∧ check_expected_result_file E tc r w1 (Some substring_msg)
    = inr (Some msg)
  ∧ test_bash_script E tc w = Raised (AssertionError msg) w'
  ∧ w' = logged E (get_name tc) script r expected (Some msg) w1
  ∧ trace w'
    = (trace w0
         ++ [EvWrite (fs_key E (d <//> test_log_name (get_name tc)))
               (test_log_content E (get_name tc) script timestamp r expected
                  (Some msg));
             EvAppend (fs_key E (d <//> "result.log"))
               (summary_entry E (get_name tc) script timestamp r expected
                  (Some msg))])%list
  ∧ test_bash_script E tc w = test_bash_script E (without_expected_output tc) w.
Proof.
  intros Hsp Hok script Hex r w1 expected Hs Heo Ht Hc Hf Htf p Hfail
         substring_msg msg w0 d timestamp w'.
  assert (Hok1 : globals_ok w1 = true)
    by apply execute_bash_script_globals_ok, Hok.
  assert (Hco : check_expected_output tc r = Some substring_msg).
  { unfold check_expected_output. rewrite Heo, Ht, Hc. reflexivity. }
  assert (Hfile : ∀ v, check_expected_result_file E tc r w1 v
                       = inr (Some msg)).
  { intros v. rewrite (check_expected_result_file_cases tc r w1 v f Hf Htf).
    fold p. unfold msg. destruct (files w1 !! fs_key E p) as [content|].
    - apply String.eqb_neq in Hfail. rewrite Hfail. reflexivity.
    - rewrite Hfail. reflexivity. }
  assert (Hm : PyStr.truthy msg = true).
  { unfold msg. destruct (files w1 !! fs_key E p); reflexivity. }
  assert (Hrun : test_bash_script E tc w
                 = Raised (AssertionError msg)
                     (logged E (get_name tc) script r expected (Some msg) w1)).
  { rewrite (test_bash_script_found E tc w sp Hsp Hex). cbv zeta.
    fold script. fold r. fold w1. fold expected.
    rewrite Hs, Bool.eqb_reflx. cbn [negb]. rewrite Hco, Hfile.
    rewrite (log_and_raise_ok E _ _ _ _ _ _ Hok1).
    cbn [PyStr.truthy_opt]. rewrite Hm. reflexivity. }
  assert (Hw' : w' = logged E (get_name tc) script r expected (Some msg) w1).
  { unfold w'. rewrite Hrun. reflexivity. }
  split; [exact Hco|]. split; [apply Hfile|].
  split; [rewrite Hw'; exact Hrun|]. split; [exact Hw'|].
  split; [rewrite Hw'; reflexivity|].
  rewrite Hrun.
  rewrite (test_bash_script_found E (without_expected_output tc) w sp Hsp Hex).
  cbv zeta. change (get_timeout (without_expected_output tc))
    with (get_timeout tc).
  change (get_expected_success (without_expected_output tc)) with expected.
  change (get_name (without_expected_output tc)) with (get_name tc).
  fold script. fold r. fold w1.
  rewrite Hs, Bool.eqb_reflx. cbn [negb].
  change (check_expected_output (without_expected_output tc) r)
    with (@None string).
  change (check_expected_result_file E (without_expected_output tc) r w1 None)
    with (check_expected_result_file E tc r w1 None).
  rewrite Hfile, (log_and_raise_ok E _ _ _ _ _ _ Hok1).
  cbn [PyStr.truthy_opt]. rewrite Hm. reflexivity.
Qed.

End Validation.

(** C9: a test case whose absolute script path does not exist fails
    with an unbound local variable, not with the not-found assertion:
    the message of the assertion mentions [script_dir], which is only
    assigned for relative paths. *)
Theorem missing_absolute_script_is_unbound_local :
  test_bash_script Sample.env (Sample.descriptor "t" "/nope.sh") Sample.world
  = Raised (UnboundLocalError "script_dir") Sample.world.
Proof.
  apply (missing_absolute_script Sample.env _ _ "/nope.sh").
  - reflexivity.
  - reflexivity.
  - apply not_exists_lookup; reflexivity.
Qed.

Lemma file_content_check_witness :
  let tc := Sample.checked "t" "ok.sh" None (Some "expected.txt") in
  let script := PyPath.Path "/h/ok.sh" in
  status Sample.ok_result true None = "PASSED"
  ∧ test_bash_script Sample.env tc Sample.world
    = Returned tt
        (logged Sample.env "t" script Sample.ok_result true None
           (execute_bash_script Sample.env script (Int 30) Sample.world).2).
Proof.
  intros tc script.
  exact (proj1 (file_content_check Sample.env tc Sample.world "ok.sh"
                  "expected.txt" eq_refl eq_refl eq_refl eq_refl eq_refl
                  eq_refl eq_refl)).
Defined.

(** The file holds 42 and a newline, the script prints 43. *)
Example file_content_mismatch_43 :
  let tc := Sample.checked "t" "out43.sh" None (Some "expected.txt") in
  let o := test_bash_script Sample.env tc Sample.world in
  raised_exn o
  = Some (AssertionError
            ("Expected output from expected.txt does not match actual output."
             ++ PyStr.nl ++ "Expected:" ++ PyStr.nl ++ "42" ++ PyStr.nl
             ++ "Actual:" ++ PyStr.nl ++ "43"))
  ∧ (PyStr.contains "Status: FAILED"
       <$> files (final_world o)
           !! fs_key Sample.env (Sample.run_dir <//> "t.log")) = Some true.
Proof. vm_compute. split; reflexivity. Qed.

Example expected_result_file_missing :
  let tc := Sample.checked "t" "ok.sh" None (Some "absent.txt") in
  let o := test_bash_script Sample.env tc Sample.world in
  raised_exn o
  = Some (AssertionError "Expected result file /h/absent.txt not found")
  ∧ (PyStr.contains "Expected result file /h/absent.txt not found"
       <$> files (final_world o)
           !! fs_key Sample.env (Sample.run_dir <//> "t.log")) = Some true.
Proof. vm_compute. split; reflexivity. Qed.

Lemma file_error_replaces_substring_error_witness :
  let tc := Sample.checked "t" "out43.sh" (Some "Hello")
              (Some "expected.txt") in
  test_bash_script Sample.env tc Sample.world
  = test_bash_script Sample.env (without_expected_output tc) Sample.world.
Proof.
  intros tc.
  apply (file_error_replaces_substring_error Sample.env tc Sample.world
           "out43.sh" "Hello" "expected.txt");
    try reflexivity.
  vm_compute. discriminate.
Defined.

(** Both checks fail; only the file-content error is raised. *)
Example both_checks_fail :
  let tc := Sample.checked "t" "out43.sh" (Some "Hello")
              (Some "expected.txt") in
  let o := test_bash_script Sample.env tc Sample.world in
  raised_exn o
  = Some (AssertionError (file_mismatch_msg "expected.txt" "42" "43"))
  ∧ (PyStr.contains "Expected output 'Hello' not found"
       <$> files (final_world o)
           !! fs_key Sample.env (Sample.run_dir <//> "t.log")) = Some false.
Proof. vm_compute. split; reflexivity. Qed.

(** ** Test Case Loader *)

Section Loader.

Variable E : Env.

Lemma normalized_lookup entries i :
  normalized_test_cases entries !! i = normalize_entry <$> entries !! i.
Proof.
  revert i. induction entries as [|e entries IH]; intros [|i]; cbn;
    [reflexivity .. | apply IH].
Qed.

Lemma normalized_length entries :
  length (normalized_test_cases entries) = length entries.
Proof. unfold normalized_test_cases. apply length_map. Qed.

(** C5: loading normalizes the configuration list entry by entry.  The
    bare string [foo.sh] becomes the descriptor named [Test foo] with
    that script path and nothing else, whose expected success and
    timeout default to true and 30 when read; a dictionary entry is
    kept as it is; length and order are those of the list. *)
Theorem load_test_cases_normalizes w content entries :
  read_file E (testcase_file E w) w = inr content →
  json_load E content = Some entries →
  let loaded := normalized_test_cases entries in
  load_test_cases E w = Returned loaded w
  ∧ length loaded = length entries
  ∧ (∀ i, loaded !! i = normalize_entry <$> entries !! i)
  ∧ (∀ d, normalize_entry (EntryDict d) = d)
  ∧ (let foo := {| name := Some "Test foo"; script_path := Some "foo.sh";
                   expected_success := None; timeout := None;
                   expected_output := None;
                   expected_result_file := None |} in
     normalized_test_cases [EntryStr "foo.sh"] = [foo]
     ∧ get_expected_success foo = true
     ∧ get_timeout foo = Int 30).
Proof.
  intros Hread Hjson loaded. split; [|split; [|split; [|split]]].
  - unfold load_test_cases. rewrite Hread, Hjson. reflexivity.
  - apply normalized_length.
  - apply normalized_lookup.
  - reflexivity.
  - repeat split.
Qed.

End Loader.

Lemma load_test_cases_normalizes_witness :
  load_test_cases Sample.env Sample.world
  = Returned [Sample.descriptor "Test foo" "foo.sh"] Sample.world.
Proof.
  exact (proj1 (load_test_cases_normalizes Sample.env Sample.world "[foo.sh]"
                  [EntryStr "foo.sh"] eq_refl eq_refl)).
Defined.

Example load_missing_configuration :
  raised_exn (load_test_cases Sample.env
                (MkWorld ∅ ∅ None None 0 [] []))
  = Some (PytestFailed "Testcase.json file not found at /h/Testcase.json").
Proof. reflexivity. Qed.

(** ** Strings and paths on concrete inputs *)

Example str_int_examples :
  PyStr.str_int (-1) = "-1" ∧ PyStr.str_int 0 = "0" ∧ PyStr.pad 2 7 = "07".
Proof. repeat split. Qed.

Example strip_example : PyStr.strip (" 42" ++ PyStr.nl) = "42".
Proof. reflexivity. Qed.

Example contains_examples :
  PyStr.contains "Hello" ("Hello, world" ++ PyStr.nl) = true
  ∧ PyStr.contains "Hello" ("Goodbye" ++ PyStr.nl) = false.
Proof. split; reflexivity. Qed.

Example path_examples :
  PyPath.Path "a//b/./c/" = MkPath "" ["a"; "b"; "c"]
  ∧ PyPath.Path "//x" = MkPath "//" ["x"]
  ∧ PyPath.Path "///x" = MkPath "/" ["x"]
  ∧ PyPath.str (PyPath.Path "") = "."
  ∧ PyPath.stem (PyPath.Path "dir/foo.sh") = "foo"
  ∧ PyPath.stem (PyPath.Path ".bashrc") = ".bashrc".
Proof. repeat split. Qed.

(** Characters beyond ASCII: [é] (233) is a letter, so the names [a é]
    and [a_é] share one log file; the no-break space (160) and NEL (133)
    are trimmed; the multiplication sign (215) is dropped from a name. *)
Example latin1_examples :
  let e_acute := String "233"%char "" in
  test_log_name ("a " ++ e_acute) = "a_" ++ e_acute ++ ".log"
  ∧ test_log_name ("a " ++ e_acute) = test_log_name ("a_" ++ e_acute)
  ∧ test_log_name ("a" ++ String "215"%char "b") = "ab.log"
  ∧ PyStr.strip (String "160"%char ("42" ++ String "133"%char "")) = "42".
Proof. repeat split. Qed.

Example test_log_name_examples :
  test_log_name "Test foo: 1 " = "Test_foo_1.log"
  ∧ test_log_name "a b" = test_log_name "a_b"
  ∧ test_log_name "result" = "result.log".
Proof. repeat split. Qed.

(** * Further properties of the harness *)

(** ** Script Executor: results and resolution *)

Section ExecutorResults.

Variable E : Env.

(** X1: in every result the executor returns, [success] is true exactly
    when the return code is 0; the two failure results carry -1. *)
Theorem execute_bash_script_success_iff_zero script t w :
  let r := (execute_bash_script E script t w).1 in
  success r = Z.eqb (returncode r) 0.
Proof.
  unfold execute_bash_script, execute_body, chmod.
  destruct (path_exists E _ w); [|reflexivity].
  destruct (chmod_error E _ w); [reflexivity|].
  destruct (subprocess_run E _ t _); reflexivity.
Qed.

(** X2: a script that does not exist is a launch failure of its own: the
    [chmod] raises, the result carries the text of that error, bash is
    never started, and the world is untouched. *)
Theorem execute_bash_script_missing_script script t w :
  let p := executor_path E script w in
  path_exists E p w = false →
  execute_bash_script E script t w
  = (failed_result (os_error_text E p w) (Int 0), w).
Proof.
  intros p Hex. unfold execute_bash_script, execute_body, chmod. fold p.
  rewrite Hex. reflexivity.
Qed.

(** A completed run: the result is what the process reported, and the
    only effect of the executor is the [chmod] of the script. *)
Lemma execute_bash_script_completed script t w rc out err elapsed :
  let p := executor_path E script w in
  path_exists E p w = true →
  chmod_error E p w = None →
  subprocess_run E (PyPath.str p) t (log_event (EvChmod (fs_key E p)) w)
  = Completed rc out err elapsed →
  execute_bash_script E script t w
  = ({| returncode := rc; stdout := out; stderr := err;
        execution_time := Float elapsed; success := Z.eqb rc 0 |},
     log_event (EvChmod (fs_key E p)) w).
Proof.
  intros p Hex Hch Hrun. unfold execute_bash_script, execute_body, chmod.
  fold p. rewrite Hex, Hch, Hrun. reflexivity.
Qed.

Lemma joinpath_absolute a b :
  PyPath.is_absolute a = true → PyPath.is_absolute (a </> b) = true.
Proof.
  intros Ha. unfold PyPath.joinpath.
  destruct (PyPath.is_absolute b) eqn:Hb; [exact Hb | exact Ha].
Qed.

(** X3: when the harness directory is absolute, the executor runs
    exactly the path the test function resolved: its own lookup under
    the harness directory never changes it. *)
Theorem executor_runs_resolved_script sp w :
  PyPath.is_absolute (script_dir E) = true →
  executor_path E (resolve_script E sp w).1 w = (resolve_script E sp w).1.
Proof.
  intros Habs. unfold resolve_script.
  destruct (PyPath.is_absolute (PyPath.Path sp)) eqn:Hsp.
  { cbn [fst]. unfold executor_path. rewrite Hsp. reflexivity. }
  destruct (path_exists E (script_dir E </> PyPath.Path sp) w) eqn:H1.
  { cbn [fst]. unfold executor_path.
    rewrite (joinpath_absolute _ _ Habs). reflexivity. }
  destruct (path_exists E
              (script_dir E <//> (PyPath.str (PyPath.Path sp) ++ ".sh")) w).
  { cbn [fst]. unfold executor_path.
    rewrite (joinpath_absolute _ _ Habs). reflexivity. }
  cbn [fst]. unfold executor_path. rewrite Hsp, H1. reflexivity.
Qed.

End ExecutorResults.

Lemma execute_bash_script_missing_script_witness :
  execute_bash_script Sample.env (PyPath.Path "ghost.sh") (Int 30) Sample.world
  = (failed_result "[Errno 2] No such file or directory: 'ghost.sh'" (Int 0),
     Sample.world).
Proof.
  apply (execute_bash_script_missing_script Sample.env (PyPath.Path "ghost.sh")
           (Int 30) Sample.world).
  apply not_exists_lookup; reflexivity.
Defined.

Lemma executor_runs_resolved_script_witness :
  executor_path Sample.env (resolve_script Sample.env "ok.sh" Sample.world).1
    Sample.world
  = PyPath.Path "/h/ok.sh".
Proof.
  exact (executor_runs_resolved_script Sample.env "ok.sh" Sample.world eq_refl).
Defined.

(** ** Run Logger: closing the run, file names *)

Section LoggerClosing.

Variable E : Env.

Lemma string_app_assoc a b c : (a ++ b) ++ c = a ++ (b ++ c).
Proof.
  induction a as [|x a IH]; [reflexivity|].
  change (String x a ++ b) with (String x (a ++ b)).
  change (String x (a ++ b) ++ c) with (String x ((a ++ b) ++ c)).
  rewrite IH. reflexivity.
Qed.

(** What [finalize_logging] does to a world with an existing summary
    log. *)
Lemma finalize_logging_appends w p :
  RESULT_LOG_FILE w = Some p → path_exists E p w = true →
  finalize_logging E w
  = append_file E p (closing_of E w) (datetime_now E w).2.
Proof.
  intros Hp Hex. unfold finalize_logging. rewrite Hp, Hex. reflexivity.
Qed.

(** X4: closing the run only adds.  [finalize_logging] deletes nothing,
    keeps the old content of every file as a prefix of the new one,
    touches no file but the summary log and changes neither the
    directories nor the two globals.  With a summary log that exists it
    appends the closing lines to it (one append, one clock reading);
    without a summary log, or when the file is not there, it does
    nothing at all. *)
Theorem finalize_logging_additive w :
  let w' := finalize_logging E w in
  additive (files w) (files w')
  ∧ (∀ k, files w' !! k = files w !! k
          ∨ Some k = fs_key E <$> RESULT_LOG_FILE w)
  ∧ dirs w' = dirs w
  ∧ TEST_RUN_DIR w' = TEST_RUN_DIR w
  ∧ RESULT_LOG_FILE w' = RESULT_LOG_FILE w
  ∧ match RESULT_LOG_FILE w with
    | Some p =>
        if path_exists E p w then
          files w' !! fs_key E p
          = Some (default "" (files w !! fs_key E p) ++ closing_of E w)
          ∧ trace w' = (trace w ++ [EvAppend (fs_key E p) (closing_of E w)])%list
          ∧ ticks w' = S (ticks w)
        else w' = w
    | None => w' = w
    end.
Proof.
  intros w'. unfold w', finalize_logging.
  assert (Hsame : additive (files w) (files w)).
  { intros k c Hk. exists c. split; [exact Hk | apply prefix_refl]. }
  destruct (RESULT_LOG_FILE w) as [p|] eqn:Hp; [|cbn; auto 7].
  destruct (path_exists E p w); [|rewrite Hp; cbn; auto 7].
  cbn. rewrite Hp. split; [|split; [|repeat split]].
  - intros k c Hk. destruct (decide (k = fs_key E p)) as [->|Hne].
    + rewrite lookup_insert_eq, Hk. cbn.
      eexists. split; [reflexivity | apply prefix_app].
    + rewrite lookup_insert_ne by congruence.
      exists c. split; [exact Hk | apply prefix_refl].
  - intros k. destruct (decide (fs_key E p = k)) as [<-|Hne]; [right|left].
    + reflexivity.
    + rewrite lookup_insert_ne by exact Hne. reflexivity.
  - apply lookup_insert_eq.
Qed.

(** X5: one whole run.  Starting without an active run, recording one
    test and closing the run leaves a summary log made of the header,
    the entry of the test and the closing lines, in this order; the
    logger sets the run up by itself. *)
Theorem summary_log_of_a_run n s r x v w :
  TEST_RUN_DIR w = None →
  test_log_name n ≠ "result.log" →
  let w1 := final_world (log_test_result E n s r x v w) in
  let timestamp := strftime_iso (now E (S (S (ticks w)))) in
  files (finalize_logging E w1)
    !! fs_key E (run_dir_of E w <//> "result.log")
  = Some (header_of E w ++ summary_entry E n s timestamp r x v
          ++ closing_of E w1).
Proof.
  intros Hnone Hn w1 timestamp.
  assert (Hok : globals_ok w = true).
  { unfold globals_ok. rewrite Hnone. reflexivity. }
  assert (Hw1 : w1 = after_log E n s r x v (run_dir_of E w)
                       (setup_logging E w)).
  { unfold w1. rewrite (log_test_result_returns E n s r x v w Hok), Hnone.
    reflexivity. }
  pose proof (setup_logging_fresh E w Hnone) as Hset.
  set (ks := fs_key E (run_dir_of E w <//> "result.log")).
  assert (Hlog : files w1 !! ks
                 = Some (header_of E w ++ summary_entry E n s timestamp r x v)).
  { rewrite Hw1. unfold ks. rewrite (after_log_summary E _ _ _ _ _ _ _ Hn).
    rewrite Hset. cbn [files ticks]. rewrite lookup_insert_eq. reflexivity. }
  assert (Hres : RESULT_LOG_FILE w1 = Some (run_dir_of E w <//> "result.log")).
  { rewrite Hw1. unfold after_log. cbn [RESULT_LOG_FILE].
    rewrite Hset. reflexivity. }
  rewrite (finalize_logging_appends w1 _ Hres (is_file_lookup E _ _ _ Hlog)).
  unfold append_file, log_event, datetime_now. cbn [files snd].
  fold ks. rewrite lookup_insert_eq, Hlog. cbn [default id].
  rewrite string_app_assoc. reflexivity.
Qed.

Lemma filter_name_chars l :
  Forall (λ c, PyStr.isalnum c = true ∨ c ∈ [" "; "-"; "_"]%char)
         (filter (λ c, (PyStr.isalnum c
                        || bool_decide (c ∈ [" "; "-"; "_"]%char))%bool = true)
                 l).
Proof.
  apply Forall_forall. intros c Hc.
  apply list_elem_of_filter in Hc as [Hc _].
  apply orb_true_iff in Hc as [Hc|Hc]; [left; exact Hc|].
  right. apply bool_decide_eq_true in Hc. exact Hc.
Qed.

(** X6: whatever the test name, its log file is a direct child of the
    run directory, and its name is made of characters that [isalnum]
    accepts, hyphens and underscores, followed by [.log]: a test name
    cannot make the logger write outside the run directory. *)
Theorem test_log_file_stays_in_run_dir d n :
  fs_key E (d <//> test_log_name n) = (fs_key E d ++ [test_log_name n])%list
  ∧ ∃ stem, test_log_name n = stem ++ ".log"
            ∧ Forall name_char (PyStr.chars stem).
Proof.
  split; [apply fs_key_child, Path_test_log_name|].
  eexists. split; [reflexivity|].
  unfold PyStr.replace_char. rewrite chars_of_chars.
  apply Forall_map. unfold safe_name, PyStr.rstrip.
  rewrite !chars_of_chars.
  apply Forall_rev, drop_while_Forall, Forall_rev.
  eapply Forall_impl; [apply filter_name_chars|].
  intros c [Hc|Hc]; cbn.
  - destruct (Ascii.eqb c " ") eqn:Hsp; [right; right; reflexivity|].
    left. exact Hc.
  - destruct (Ascii.eqb c " ") eqn:Hsp; [right; right; reflexivity|].
    apply Ascii.eqb_neq in Hsp. right.
    repeat (apply elem_of_cons in Hc as [Hc|Hc]; [subst|]);
      [congruence | left; reflexivity | right; reflexivity |].
    apply elem_of_nil in Hc. destruct Hc.
Qed.

Lemma take_while_app {A} (p : A → bool) l l' :
  Forall (λ c, p c = true) l →
  PyStr.take_while p (l ++ l') = (l ++ PyStr.take_while p l')%list.
Proof.
  intros Hl. induction Hl as [|c l Hc _ IH]; cbn; [reflexivity|].
  rewrite Hc, IH. reflexivity.
Qed.

Lemma literal_has_no_newline (l : list ascii) :
  forallb (λ c, negb (Ascii.eqb c "010")) l = true →
  Forall (λ c, negb (Ascii.eqb c "010") = true) l.
Proof.
  induction l as [|c l IH]; cbn; [constructor|].
  intros H. apply andb_true_iff in H as [Hc Hl].
  constructor; [exact Hc | exact (IH Hl)].
Qed.

(** The first line of the file-content mismatch message. *)
Lemma first_line_of_file_mismatch f a b :
  Forall (λ c, c ≠ "010"%char) (PyStr.chars f) →
  PyStr.first_line (file_mismatch_msg f a b)
  = "Expected output from " ++ f ++ " does not match actual output.".
Proof.
  intros Hf. unfold PyStr.first_line, file_mismatch_msg.
  rewrite <- (of_chars_chars
                ("Expected output from " ++ f
                 ++ " does not match actual output.")).
  f_equal. rewrite !chars_app.
  rewrite take_while_app by (apply literal_has_no_newline; reflexivity).
  f_equal.
  rewrite take_while_app.
  2:{ eapply Forall_impl; [exact Hf|]. intros c Hc. cbn.
      apply negb_true_iff, Ascii.eqb_neq. exact Hc. }
  reflexivity.
Qed.

(** X7: the summary log shows only the first line of a validation
    error.  Recording a file-content mismatch appends to [result.log]
    an entry whose validation line is the line naming the
    expected-result file; the expected and the actual text are not
    part of the entry. *)
Theorem summary_shows_first_line_of_mismatch n s r x f a b w :
  globals_ok w = true →
  test_log_name n ≠ "result.log" →
  Forall (λ c, c ≠ "010"%char) (PyStr.chars f) →
  let msg := "Expected output from " ++ f ++ " does not match actual output."
             ++ PyStr.nl ++ "Expected:" ++ PyStr.nl ++ a ++ PyStr.nl
             ++ "Actual:" ++ PyStr.nl ++ b in
  let w0 := setup_logging E w in
  let d := default (run_dir_of E w) (TEST_RUN_DIR w) in
  let ks := fs_key E (d <//> "result.log") in
  let w' := final_world (log_test_result E n s r x (Some msg) w) in
  files w' !! ks
  = Some (default "" (files w0 !! ks)
          ++ "[" ++ strftime_iso (now E (ticks w0)) ++ "] FAILED: " ++ n
          ++ PyStr.nl
          ++ "  Script: " ++ PyPath.str s ++ PyStr.nl
          ++ "  Execution Time: " ++ format_2f E (execution_time r) ++ "s"
          ++ PyStr.nl
          ++ "  Return Code: " ++ PyStr.str_int (returncode r) ++ PyStr.nl
          ++ (if Bool.eqb (success r) x then ""
              else "  Script Status: Expected " ++ outcome_word x
                   ++ " but got " ++ outcome_word (success r) ++ PyStr.nl)
          ++ ("  Validation Error: "
              ++ ("Expected output from " ++ f
                  ++ " does not match actual output.")
              ++ "..." ++ PyStr.nl)
          ++ (if PyStr.truthy (stderr r)
              then "  Error: " ++ PyStr.slice_to 100 (stderr r) ++ "..."
                   ++ PyStr.nl
              else "")
          ++ PyStr.nl).
Proof.
  intros Hok Hn Hf msg w0 d ks w'.
  unfold w'. rewrite (log_test_result_returns E n s r x (Some msg) w Hok).
  cbn [final_world]. fold d. fold w0. unfold ks.
  rewrite (after_log_summary E _ _ _ _ _ _ _ Hn). f_equal. f_equal.
  unfold summary_entry.
  assert (Hst : status r x (Some msg) = "FAILED").
  { unfold status, overall_success. rewrite andb_false_r. reflexivity. }
  rewrite Hst.
  change (PyStr.truthy_opt (Some msg)) with true. cbv iota.
  change (default "" (Some msg)) with (file_mismatch_msg f a b).
  rewrite (first_line_of_file_mismatch f a b Hf).
  reflexivity.
Qed.

End LoggerClosing.

Lemma summary_log_of_a_run_witness :
  let script := PyPath.Path "/h/ok.sh" in
  let w1 := final_world (log_test_result Sample.env "t" script
                           Sample.ok_result true None Sample.world) in
  files (finalize_logging Sample.env w1)
    !! fs_key Sample.env (Sample.run_dir <//> "result.log")
  = Some (header_of Sample.env Sample.world
          ++ summary_entry Sample.env "t" script "2024-01-02 03:04:02"
               Sample.ok_result true None
          ++ closing_of Sample.env w1).
Proof.
  intros script w1.
  apply (summary_log_of_a_run Sample.env "t" script Sample.ok_result true None
           Sample.world); [reflexivity | vm_compute; discriminate].
Defined.

Lemma summary_shows_first_line_of_mismatch_witness :
  let script := PyPath.Path "/h/out43.sh" in
  let msg := file_mismatch_msg "expected.txt" "42" "43" in
  let r := {| returncode := 0; stdout := "43"; stderr := "";
              execution_time := Float (1 # 100); success := true |} in
  let w' := final_world (log_test_result Sample.env "t" script r true
                           (Some msg) Sample.world) in
  PyStr.contains "Actual:"
    <$> files w' !! fs_key Sample.env (Sample.run_dir <//> "result.log")
  = Some false.
Proof.
  intros script msg r w'.
  assert (Hn : test_log_name "t" ≠ "result.log")
    by (vm_compute; discriminate).
  assert (Hf : Forall (λ c, c ≠ "010"%char) (PyStr.chars "expected.txt"))
    by (repeat constructor; discriminate).
  pose proof (summary_shows_first_line_of_mismatch Sample.env "t" script r
                true "expected.txt" "42" "43" Sample.world eq_refl Hn Hf)
    as H.
  cbv zeta in H.
  refine (eq_trans (f_equal (fmap (PyStr.contains "Actual:")) H) _).
  vm_compute. reflexivity.
Defined.

(** ** Test function: outcomes *)

Section TestOutcomes.

Variable E : Env.

(** X8: with only [expected_output] set (a non-empty string), a test
    whose success matches passes exactly when that string occurs in the
    captured stdout; otherwise the test is logged as FAILED and fails
    with the message naming the expected output. *)
Theorem substring_check tc w sp eo :
  script_path tc = Some sp →
  expected_output tc = Some eo →
  PyStr.truthy eo = true →
  expected_result_file tc = None →
  globals_ok w = true →
  let script := (resolve_script E sp w).1 in
  path_exists E script w = true →
  let r := (execute_bash_script E script (get_timeout tc) w).1 in
  let w1 := (execute_bash_script E script (get_timeout tc) w).2 in
  let expected := get_expected_success tc in
  success r = expected →
  let logged_with v := logged E (get_name tc) script r expected v w1 in
  if PyStr.contains eo (stdout r) then
    status r expected None = "PASSED"
    ∧ test_bash_script E tc w = Returned tt (logged_with None)
  else
    let msg := "Expected output '" ++ eo ++ "' not found in script output" in
    status r expected (Some msg) = "FAILED"
    ∧ test_bash_script E tc w
      = Raised (AssertionError msg) (logged_with (Some msg)).
Proof.
  intros Hsp Heo Ht Hf Hok script Hex r w1 expected Hs logged_with.
  assert (Hok1 : globals_ok w1 = true)
    by apply execute_bash_script_globals_ok, Hok.
  assert (Hst : ∀ v, status r expected v
                     = match v with None => "PASSED" | Some _ => "FAILED" end).
  { intros v. unfold status, overall_success, script_success.
    rewrite Hs, Bool.eqb_reflx. destruct v; reflexivity. }
  rewrite (test_bash_script_found E tc w sp Hsp Hex). cbv zeta.
  fold script. fold r. fold w1. fold expected.
  rewrite Hs, Bool.eqb_reflx. cbn [negb].
  unfold check_expected_result_file, check_expected_output.
  rewrite Hf, Heo, Ht.
  destruct (PyStr.contains eo (stdout r)).
  - rewrite Hst, (log_and_raise_ok E _ _ _ _ _ _ Hok1). split; reflexivity.
  - cbv zeta. rewrite Hst, (log_and_raise_ok E _ _ _ _ _ _ Hok1).
    split; reflexivity.
Qed.

(** X9: an empty [expected_output] or [expected_result_file] string is
    no expectation at all: the test runs exactly as if the key were
    absent. *)
Theorem empty_expectations_are_ignored tc w :
  test_bash_script E tc w = test_bash_script E (drop_empty_expectations tc) w.
Proof.
  destruct tc as [n sp es t eo f].
  assert (Ho : ∀ r, check_expected_output
                      {| name := n; script_path := sp; expected_success := es;
                         timeout := t; expected_output := eo;
                         expected_result_file := f |} r
                    = check_expected_output
                        (drop_empty_expectations
                           {| name := n; script_path := sp;
                              expected_success := es; timeout := t;
                              expected_output := eo;
                              expected_result_file := f |}) r).
  { intros r. unfold check_expected_output, drop_empty_expectations.
    cbn [expected_output]. destruct eo as [s|]; [|reflexivity].
    destruct (PyStr.truthy s) eqn:Hs; [rewrite Hs|]; reflexivity. }
  assert (Hf : ∀ r w' v, check_expected_result_file E
                      {| name := n; script_path := sp; expected_success := es;
                         timeout := t; expected_output := eo;
                         expected_result_file := f |} r w' v
                    = check_expected_result_file E
                        (drop_empty_expectations
                           {| name := n; script_path := sp;
                              expected_success := es; timeout := t;
                              expected_output := eo;
                              expected_result_file := f |}) r w' v).
  { intros r w' v. unfold check_expected_result_file, drop_empty_expectations.
    cbn [expected_result_file]. destruct f as [s|]; [|reflexivity].
    destruct (PyStr.truthy s) eqn:Hs; [rewrite Hs|]; reflexivity. }
  unfold test_bash_script.
  change (script_path (drop_empty_expectations _)) with sp.
  cbn [script_path].
  destruct sp as [sp|]; [|reflexivity].
  destruct (resolve_script E sp w) as [script b].
  destruct (path_exists E script w); cbn [negb]; [|reflexivity].
  change (get_timeout (drop_empty_expectations ?x)) with (get_timeout x).
  destruct (execute_bash_script E script _ w) as [r w1].
  change (get_expected_success (drop_empty_expectations ?x))
    with (get_expected_success x).
  change (get_name (drop_empty_expectations ?x)) with (get_name x).
  rewrite <- Ho, <- Hf. reflexivity.
Qed.

Lemma check_expected_output_truthy tc r v :
  check_expected_output tc r = Some v → PyStr.truthy v = true.
Proof.
  unfold check_expected_output.
  destruct (expected_output tc) as [eo|]; [|discriminate].
  destruct (PyStr.truthy eo); [|discriminate].
  destruct (PyStr.contains eo (stdout r)); [discriminate|].
  intros [= <-]. reflexivity.
Qed.

Lemma check_expected_result_file_truthy tc r w v0 v :
  (∀ m, v0 = Some m → PyStr.truthy m = true) →
  check_expected_result_file E tc r w v0 = inr (Some v) →
  PyStr.truthy v = true.
Proof.
  intros H0. unfold check_expected_result_file.
  destruct (expected_result_file tc) as [f|]; [|intros [= ->]; auto].
  destruct (PyStr.truthy f); [|intros [= ->]; auto].
  destruct (path_exists E _ w); [|intros [= <-]; reflexivity].
  destruct (read_file E _ w) as [e|c]; [discriminate|].
  destruct (String.eqb _ _); [intros [= ->]; auto | intros [= <-]; reflexivity].
Qed.

Lemma check_expected_result_file_none tc r w v0 :
  check_expected_result_file E tc r w v0 = inr None →
  v0 = None ∧ check_expected_result_file E tc r w None = inr None.
Proof.
  unfold check_expected_result_file.
  destruct (expected_result_file tc) as [f|]; [|intros [= ->]; auto].
  destruct (PyStr.truthy f); [|intros [= ->]; auto].
  destruct (path_exists E _ w); [|discriminate].
  destruct (read_file E _ w) as [e|c]; [discriminate|].
  destruct (String.eqb _ _); [intros [= ->]; auto | discriminate].
Qed.

(** X10: a test that returns normally has passed every check: its
    script path was set and resolved to an existing path, the result the
    executor returned for it has the expected success, neither the
    substring check nor the file-content check recorded an error, and
    the result has been logged (as PASSED). *)
Theorem returned_means_all_checks_passed tc w w' :
  globals_ok w = true →
  test_bash_script E tc w = Returned tt w' →
  ∃ sp, script_path tc = Some sp
    ∧ let script := (resolve_script E sp w).1 in
      let r := (execute_bash_script E script (get_timeout tc) w).1 in
      let w1 := (execute_bash_script E script (get_timeout tc) w).2 in
      path_exists E script w = true
      ∧ success r = get_expected_success tc
      ∧ check_expected_output tc r = None
      ∧ check_expected_result_file E tc r w1 None = inr None
      ∧ status r (get_expected_success tc) None = "PASSED"
      ∧ w' = logged E (get_name tc) script r (get_expected_success tc) None w1.
Proof.
  intros Hok Hret.
  destruct (script_path tc) as [sp|] eqn:Hsp.
  2:{ unfold test_bash_script in Hret. rewrite Hsp in Hret. discriminate. }
  exists sp. split; [reflexivity|]. cbv zeta.
  destruct (path_exists E (resolve_script E sp w).1 w) eqn:Hex.
  2:{ unfold test_bash_script in Hret. rewrite Hsp in Hret.
      destruct (resolve_script E sp w) as [script b]. cbn [fst] in Hex.
      rewrite Hex in Hret. destruct b; discriminate. }
  rewrite (test_bash_script_found E tc w sp Hsp Hex) in Hret.
  cbv zeta in Hret.
  set (script := (resolve_script E sp w).1) in *.
  set (rw := execute_bash_script E script (get_timeout tc) w) in *.
  assert (Hok1 : globals_ok rw.2 = true)
    by apply execute_bash_script_globals_ok, Hok.
  destruct (Bool.eqb (success rw.1) (get_expected_success tc)) eqn:Hs;
    cbn [negb] in Hret; [|discriminate].
  apply Bool.eqb_prop in Hs.
  destruct (check_expected_result_file E tc rw.1 rw.2
              (check_expected_output tc rw.1)) as [e|v] eqn:Hv;
    [discriminate|].
  rewrite (log_and_raise_ok E _ _ _ _ _ _ Hok1) in Hret.
  destruct v as [m|].
  { assert (Hm : PyStr.truthy m = true).
    { eapply check_expected_result_file_truthy; [|exact Hv].
      intros m0. apply check_expected_output_truthy. }
    cbn [PyStr.truthy_opt] in Hret. rewrite Hm in Hret. discriminate. }
  cbn [PyStr.truthy_opt] in Hret. injection Hret as <-.
  apply check_expected_result_file_none in Hv as [Hco Hcf].
  repeat split; try assumption.
  unfold status, overall_success, script_success.
  rewrite Hs, Bool.eqb_reflx. reflexivity.
Qed.

(** X11: a relative script path found neither under the harness
    directory, nor there with the [.sh] suffix, nor from the working
    directory fails the test with the not-found assertion before
    anything is run or logged. *)
Theorem script_not_found tc w sp :
  script_path tc = Some sp →
  PyPath.is_absolute (PyPath.Path sp) = false →
  path_exists E (script_dir E </> PyPath.Path sp) w = false →
  path_exists E (script_dir E <//> (PyPath.str (PyPath.Path sp) ++ ".sh")) w
  = false →
  path_exists E (PyPath.Path sp) w = false →
  test_bash_script E tc w
  = Raised (AssertionError
              ("Script " ++ PyPath.str (PyPath.Path sp)
               ++ " not found for test " ++ get_name tc
               ++ ". Checked paths: " ++ PyPath.str (PyPath.Path sp) ++ ", "
               ++ PyPath.str (script_dir E </> PyPath.Path sp))) w.
Proof.
  intros Hsp Hrel H1 H2 H3.
  apply (missing_relative_script E tc w sp Hsp Hrel).
  unfold resolve_script. rewrite Hrel, H1, H2. exact H3.
Qed.

(** X12: the [.sh] fallback, end to end.  With an absolute harness
    directory, a relative path that is not found under it but is found
    there with [.sh] appended makes the executor run that file. *)
Theorem sh_suffix_fallback_is_run sp w :
  PyPath.is_absolute (script_dir E) = true →
  PyPath.is_absolute (PyPath.Path sp) = false →
  path_exists E (script_dir E </> PyPath.Path sp) w = false →
  path_exists E (script_dir E <//> (PyPath.str (PyPath.Path sp) ++ ".sh")) w
  = true →
  executor_path E (resolve_script E sp w).1 w
  = script_dir E <//> (PyPath.str (PyPath.Path sp) ++ ".sh").
Proof.
  intros Habs Hrel H1 H2. unfold resolve_script. rewrite Hrel, H1, H2.
  cbn [fst]. unfold executor_path.
  rewrite (joinpath_absolute _ _ Habs). reflexivity.
Qed.

(** X13: a test that expects failure passes whenever the executor
    could not complete the script: on a timeout as on any launch
    failure the result has success false, which is what was expected. *)
Theorem expected_failure_passes_on_executor_error tc w sp e :
  script_path tc = Some sp →
  expected_success tc = Some false →
  expected_output tc = None →
  expected_result_file tc = None →
  globals_ok w = true →
  let script := (resolve_script E sp w).1 in
  path_exists E script w = true →
  (execute_body E (executor_path E script w) (get_timeout tc) w).1 = inl e →
  let r := (execute_bash_script E script (get_timeout tc) w).1 in
  let w1 := (execute_bash_script E script (get_timeout tc) w).2 in
  returncode r = -1
  ∧ status r false None = "PASSED"
  ∧ test_bash_script E tc w
    = Returned tt (logged E (get_name tc) script r false None w1).
Proof.
  intros Hsp Hes Heo Hf Hok script Hex Hbody r w1.
  assert (Hok1 : globals_ok w1 = true)
    by apply execute_bash_script_globals_ok, Hok.
  assert (Hr : returncode r = -1 ∧ success r = false).
  { unfold r, execute_bash_script.
    destruct (execute_body E _ (get_timeout tc) w) as [[e'|r'] w2];
      cbn [fst] in Hbody; [|discriminate].
    destruct e'; split; reflexivity. }
  destruct Hr as [Hrc Hsucc].
  assert (Hexp : get_expected_success tc = false).
  { unfold get_expected_success. rewrite Hes. reflexivity. }
  split; [exact Hrc|]. split.
  { unfold status, overall_success, script_success. rewrite Hsucc.
    reflexivity. }
  rewrite (test_bash_script_found E tc w sp Hsp Hex). cbv zeta.
  fold script. fold r. fold w1. rewrite Hexp, Hsucc. cbn [negb Bool.eqb].
  unfold check_expected_result_file, check_expected_output.
  rewrite Hf, Heo.
  rewrite (log_and_raise_ok E _ _ _ _ _ _ Hok1). reflexivity.
Qed.

End TestOutcomes.

Lemma substring_check_witness :
  let tc := Sample.checked "t" "ok.sh" (Some "4") None in
  let script := PyPath.Path "/h/ok.sh" in
  test_bash_script Sample.env tc Sample.world
  = Returned tt
      (logged Sample.env "t" script Sample.ok_result true None
         (execute_bash_script Sample.env script (Int 30) Sample.world).2).
Proof.
  intros tc script.
  exact (proj2 (substring_check Sample.env tc Sample.world "ok.sh" "4"
                  eq_refl eq_refl eq_refl eq_refl eq_refl eq_refl eq_refl)).
Defined.

(** The script prints 42; the expected output is Hello. *)
Example substring_check_fails :
  let tc := Sample.checked "t" "ok.sh" (Some "Hello") None in
  raised_exn (test_bash_script Sample.env tc Sample.world)
  = Some (AssertionError "Expected output 'Hello' not found in script output").
Proof. vm_compute. reflexivity. Qed.

Lemma returned_means_all_checks_passed_witness :
  let tc := Sample.checked "t" "ok.sh" (Some "4") (Some "expected.txt") in
  ∃ sp, script_path tc = Some sp
        ∧ check_expected_output tc
            (execute_bash_script Sample.env
               (resolve_script Sample.env sp Sample.world).1 (get_timeout tc)
               Sample.world).1 = None.
Proof.
  intros tc.
  assert (Hn : raised_exn (test_bash_script Sample.env tc Sample.world) = None)
    by (vm_compute; reflexivity).
  destruct (test_bash_script Sample.env tc Sample.world) as [[] w'|e w']
    eqn:Hret; [|discriminate Hn].
  destruct (returned_means_all_checks_passed Sample.env tc Sample.world w'
              eq_refl Hret) as (sp & Hsp & _ & _ & Hco & _).
  exists sp. split; [exact Hsp | exact Hco].
Defined.

Lemma script_not_found_witness :
  test_bash_script Sample.env (Sample.descriptor "t" "nope") Sample.world
  = Raised (AssertionError
              "Script nope not found for test t. Checked paths: nope, /h/nope")
      Sample.world.
Proof.
  apply (script_not_found Sample.env (Sample.descriptor "t" "nope")
           Sample.world "nope"); reflexivity.
Defined.

Lemma sh_suffix_fallback_is_run_witness :
  executor_path Sample.env (resolve_script Sample.env "ok" Sample.world).1
    Sample.world
  = PyPath.Path "/h/ok.sh".
Proof.
  apply (sh_suffix_fallback_is_run Sample.env "ok" Sample.world); reflexivity.
Defined.

Lemma expected_failure_passes_on_executor_error_witness :
  let tc := {| name := Some "t"; script_path := Some "slow.sh";
               expected_success := Some false; timeout := Some (Int 5);
               expected_output := None; expected_result_file := None |} in
  let script := PyPath.Path "/h/slow.sh" in
  test_bash_script Sample.env tc Sample.world
  = Returned tt
      (logged Sample.env "t" script
         (failed_result "Script execution timed out after 5 seconds" (Int 5))
         false None
         (execute_bash_script Sample.env script (Int 5) Sample.world).2).
Proof.
  intros tc script.
  exact (proj2 (proj2
           (expected_failure_passes_on_executor_error Sample.env tc
              Sample.world "slow.sh" TimeoutExpired
              eq_refl eq_refl eq_refl eq_refl eq_refl eq_refl eq_refl))).
Defined.

Lemma matching_success_is_logged_once_witness :
  let tc := Sample.checked "t" "out43.sh" None (Some "expected.txt") in
  length (trace (final_world (test_bash_script Sample.env tc Sample.world)))
  = 6%nat.
Proof.
  intros tc.
  rewrite (matching_success_is_logged_once Sample.env tc Sample.world "out43.sh"
             (Some (file_mismatch_msg "expected.txt" "42" "43"))
             eq_refl eq_refl eq_refl eq_refl eq_refl).
  reflexivity.
Defined.

Lemma test_bash_script_globals_ok_witness :
  globals_ok (final_world
                (test_bash_script Sample.env (Sample.descriptor "t" "ok.sh")
                   Sample.world)) = true.
Proof.
  exact (test_bash_script_globals_ok Sample.env (Sample.descriptor "t" "ok.sh")
           Sample.world eq_refl).
Defined.

(** ** Test Case Loader and test generation *)

Section LoaderErrors.

Variable E : Env.

(** X14: without a Testcase.json in the working directory or next to
    the harness, loading fails the run with a message that names the
    file next to the harness; nothing is read or written. *)
Theorem load_test_cases_not_found w :
  path_exists E (PyPath.Path "Testcase.json") w = false →
  path_exists E (script_dir E <//> "Testcase.json") w = false →
  load_test_cases E w
  = Raised (PytestFailed ("Testcase.json file not found at "
                          ++ PyPath.str (script_dir E <//> "Testcase.json"))) w.
Proof.
  intros H1 H2. unfold load_test_cases, testcase_file. rewrite H1.
  unfold read_file.
  unfold path_exists in H2. apply orb_false_iff in H2 as [Hf Hd].
  unfold is_file in Hf. apply bool_decide_eq_false in Hf.
  destruct (files w !! fs_key E (script_dir E <//> "Testcase.json")) eqn:Hl.
  { destruct Hf. eauto. }
  rewrite Hd. reflexivity.
Qed.


(** X16: the ids handed to [parametrize].  There is one id per loaded
    test case, in order; a bare-string entry gets the id [Test] plus the
    stem of its path, a dictionary gets its name, or [test_] plus its
    position when it has none. *)
Theorem pytest_generate_tests_ids fixturenames w content entries :
  "test_case" ∈ fixturenames →
  read_file E (testcase_file E w) w = inr content →
  json_load E content = Some entries →
  ∃ ids,
    pytest_generate_tests E fixturenames w
    = Returned (Some (normalized_test_cases entries, ids)) w
    ∧ length ids = length entries
    ∧ (∀ i s, entries !! i = Some (EntryStr s) →
              ids !! i = Some ("Test " ++ PyPath.stem (PyPath.Path s)))
    ∧ (∀ i d, entries !! i = Some (EntryDict d) →
              ids !! i
              = Some (default ("test_" ++ PyStr.str_int (Z.of_nat i))
                              (name d))).
Proof.
  intros Hfix Hread Hjson.
  exists (test_ids (normalized_test_cases entries)). split; [|split; [|split]].
  - unfold pytest_generate_tests, load_test_cases.
    rewrite bool_decide_eq_true_2 by exact Hfix.
    rewrite Hread, Hjson. reflexivity.
  - unfold test_ids. rewrite length_imap. apply normalized_length.
  - intros i s Hi. unfold test_ids.
    rewrite list_lookup_imap, normalized_lookup, Hi. reflexivity.
  - intros i d Hi. unfold test_ids.
    rewrite list_lookup_imap, normalized_lookup, Hi. reflexivity.
Qed.

End LoaderErrors.

Lemma load_test_cases_not_found_witness :
  load_test_cases Sample.env (MkWorld ∅ ∅ None None 0 [] [])
  = Raised (PytestFailed "Testcase.json file not found at /h/Testcase.json")
      (MkWorld ∅ ∅ None None 0 [] []).
Proof.
  apply (load_test_cases_not_found Sample.env (MkWorld ∅ ∅ None None 0 [] []));
    reflexivity.
Defined.


Lemma pytest_generate_tests_ids_witness :
  ∃ ids,
    pytest_generate_tests Sample.env ["test_case"] Sample.world
    = Returned (Some ([Sample.descriptor "Test foo" "foo.sh"], ids))
        Sample.world
    ∧ ids !! 0%nat = Some "Test foo".
Proof.
  destruct (pytest_generate_tests_ids Sample.env ["test_case"] Sample.world
              "[foo.sh]" [EntryStr "foo.sh"])
    as (ids & Hrun & _ & Hstr & _);
    [constructor | reflexivity | reflexivity |].
  exists ids. split; [exact Hrun|]. exact (Hstr 0%nat "foo.sh" eq_refl).
Defined.

(** ** The run directory *)

Section RunDirectory.

Variable E : Env.

Lemma log_test_result_keeps_run_dir n s r x v w d :
  TEST_RUN_DIR w = Some d →
  TEST_RUN_DIR (final_world (log_test_result E n s r x v w)) = Some d.
Proof.
  intros Hd. destruct w as [fs ds rd rl tk co tr]. cbn in Hd. subst rd.
  unfold log_test_result. cbn. destruct rl; reflexivity.
Qed.

(** X19: the run directory is chosen once.  When a run is active, a
    test, whatever its outcome and whatever the clock shows by then,
    leaves the run directory as it is, so all tests of a run log into
    the same directory. *)
Theorem run_directory_is_stable tc w d :
  TEST_RUN_DIR w = Some d →
  TEST_RUN_DIR (final_world (test_bash_script E tc w)) = Some d.
Proof.
  intros Hd. unfold test_bash_script.
  destruct (script_path tc) as [sp|]; [|exact Hd].
  destruct (resolve_script E sp w) as [script b].
  destruct (path_exists E script w); cbn [negb]; [|destruct b; exact Hd].
  destruct (execute_bash_script_frame E script (get_timeout tc) w)
    as (_ & _ & Ht & _).
  destruct (execute_bash_script E script (get_timeout tc) w) as [r w1].
  cbn [snd] in Ht. rewrite <- Ht in Hd.
  destruct (negb (Bool.eqb (success r) (get_expected_success tc)));
    [exact Hd|].
  destruct (check_expected_result_file E tc r w1 (check_expected_output tc r))
    as [e|v]; [exact Hd|].
  pose proof (log_test_result_keeps_run_dir (get_name tc) script r
                (get_expected_success tc) v w1 d Hd) as Hl.
  unfold log_and_raise.
  destruct (log_test_result E (get_name tc) script r
              (get_expected_success tc) v w1) as [[] w2|e w2];
    [|exact Hl].
  destruct (PyStr.truthy_opt v); exact Hl.
Qed.

End RunDirectory.

Lemma run_directory_is_stable_witness :
  let w := setup_logging Sample.env Sample.world in
  TEST_RUN_DIR (final_world
                  (test_bash_script Sample.env (Sample.descriptor "t" "ok.sh")
                     w))
  = Some Sample.run_dir.
Proof.
  intros w.
  exact (run_directory_is_stable Sample.env (Sample.descriptor "t" "ok.sh") w
           Sample.run_dir eq_refl).
Defined.
